(** * The resilient request dispatcher of [frontend/src/api/apiConfig.js]

    A shallow embedding of the axios interceptors that implement the
    per-endpoint circuit breaker, the throttle window, the TTL response
    cache, the retry loop and the fallback substitution, followed by the
    properties of the dispatcher.

    Conventions of the embedding:
    - the three module-level stores ([circuitBreakers], [responseCache],
      [recentCalls]) are JS objects / a [Map] keyed by strings; they are
      finite maps here and are threaded explicitly through every handler;
      a key that names a property every JS object inherits ([constructor],
      [toString], ...) is found by [circuitBreakers[endpoint]] although no
      entry was stored; the finite map has no such key, so the properties
      about the creation and the counters of a breaker are stated for the
      other urls ([inheritedName] below);
    - an interceptor is synchronous code: the [Date.now()] readings made
      while one handler runs are one parameter [now] of that handler;
    - the object aliasing [breaker = circuitBreakers[endpoint]] followed by a
      field assignment is a write back into the map at [endpoint];
    - the network is an input: the outcome of each live attempt is supplied
      by the caller of the model. *)

From Stdlib Require Import ZArith NArith String Ascii List Bool Lia.
From Stdlib Require DecimalString DecimalZ DecimalPos HexadecimalString.
From stdpp Require Import gmap strings pretty.

Local Open Scope string_scope.
Local Open Scope Z_scope.

(** ** Constants (lines 19-24 and 36) *)

Definition THROTTLE_WINDOW : Z := 1000.
Definition MAX_CALLS_PER_WINDOW : Z := 10.
Definition CIRCUIT_BREAKER_THRESHOLD : Z := 5.
Definition CIRCUIT_BREAKER_TIMEOUT : Z := 30000.
Definition RETRY_ATTEMPTS : nat := 3.
Definition RETRY_DELAY : Z := 1000.
Definition CACHE_TTL : Z := 5 * 60 * 1000.

(** ** Data model *)

(** [config.method?.toUpperCase()]: the request methods of axios. *)
Inductive Method := GET | POST | PUT | DELETE | PATCH | HEAD | OPTIONS.

Definition method_str (m : Method) : string :=
  match m with
  | GET => "GET" | POST => "POST" | PUT => "PUT" | DELETE => "DELETE"
  | PATCH => "PATCH" | HEAD => "HEAD" | OPTIONS => "OPTIONS"
  end.

Definition is_GET (m : Method) : bool :=
  match m with GET => true | _ => false end.

Definition is_mutating (m : Method) : bool :=
  match m with POST | PUT | DELETE | PATCH => true | _ => false end.

(** A response body as JavaScript sees it after JSON parsing. Objects and
    arrays are opaque; what the dispatcher observes of a body is only its
    truthiness ([response.data && ...], [if (...lastResponse)]). *)
Inductive Payload :=
| JNull
| JBool (b : bool)
| JNum (n : Z)
| JStr (s : string)
| JObj (body : string).

Definition truthy (p : Payload) : bool :=
  match p with
  | JNull => false
  | JBool b => b
  | JNum n => negb (n =? 0)%Z
  | JStr s => negb (String.eqb s "")
  | JObj _ => true
  end.

(** [CIRCUIT_STATES] *)
Inductive CircuitStates := CLOSED | OPEN | HALF_OPEN.

(** One entry of [circuitBreakers]. The two time stamps are [null] until
    first written. *)
Record Breaker := mkBreaker {
  state : CircuitStates;
  failureCount : Z;
  lastFailureTime : option Z;
  lastSuccessTime : option Z
}.

(** One entry of [responseCache]: [{ data, timestamp }]. *)
Record CacheEntry := mkCacheEntry {
  ce_data : Payload;
  ce_timestamp : Z
}.

(** One entry of [recentCalls]: [{ time, count, lastResponse }]. *)
Record Window := mkWindow {
  time : Z;
  count : Z;
  lastResponse : Payload
}.

(** The module-level mutable state. *)
Record Store := mkStore {
  circuitBreakers : gmap string Breaker;
  responseCache : gmap string CacheEntry;
  recentCalls : gmap string Window
}.

Definition emptyStore : Store := mkStore ∅ ∅ ∅.

(** The part of an axios request config the interceptors read. *)
Record Config := mkConfig {
  url : string;
  method : Method
}.

(** An entry of [fallbackData], and the two literal bodies built in
    [getFallbackResponse] and for the deprecated endpoint. [fb_paginated]
    says whether the body carries the [pagination] stub. *)
Record CannedBody := mkCanned {
  fb_success : bool;
  fb_paginated : bool;
  fb_message : string
}.

(** The [data] field of what the dispatcher hands back. *)
Inductive ResponseData :=
| ServerData (p : Payload)
    (* a body received from the server, as is *)
| CachedData (p : Payload) (cacheAge : Z)
    (* [{...cached.data, fromCache: true, cacheAge}] *)
| FallbackBody (b : CannedBody) (endpoint : string) (timestamp : Z)
    (* [{...body, fallback: true, endpoint, timestamp}] *)
| PlainBody (b : CannedBody).
    (* a literal body without any tag *)

Record Response := mkResponse {
  data : ResponseData;
  status : option Z;
  statusText : option string
}.

(** An error as it reaches the rejection handler of the response
    interceptor: [error.config], [error.response?.status], and whether
    [error.request] is set. *)
Record AxiosError := mkError {
  err_config : option Config;
  err_status : option Z;
  err_request : bool;
  err_message : string
}.

(** What a handler throws: the [{ __MOCK_RESPONSE__: r }] object or an
    error. *)
Inductive Thrown :=
| MockResponse (r : Response)
| Err (e : AxiosError).

(** The rejection finally delivered to the caller ([enhancedError]). *)
Record EnhancedError := mkEnhanced {
  ee_status : option Z;
  ee_isNetworkError : bool;
  ee_endpoint : option string;
  ee_method : Method;
  ee_circuitState : option CircuitStates;
  ee_fallbackAttempted : bool;
  ee_originalMessage : string
}.

Inductive Settled :=
| Resolved (r : Response)
| Rejected (e : EnhancedError).

(** The outcome of one live attempt, as axios reports it. *)
Inductive NetOutcome :=
| NetOk (st : Z) (body : Payload)
| NetFail (st : option Z) (request : bool).

(** ** Helpers (lines 38-133) *)

(** [fallbackData], in the order of [Object.keys]. *)
Definition fallbackData : list (string * CannedBody) :=
  [ ("/settings", mkCanned true false "Using cached settings data");
    ("/expenses", mkCanned true true "Using cached expenses data");
    ("/budgets", mkCanned true true "Using cached budgets data") ].

Definition newBreaker : Breaker := mkBreaker CLOSED 0 None None.

(** [getCircuitBreaker]: creates the entry on first use; returns the store
    of breakers after the call together with the entry. *)
Definition getCircuitBreaker (cbs : gmap string Breaker) (endpoint : string)
  : gmap string Breaker * Breaker :=
  match cbs !! endpoint with
  | Some b => (cbs, b)
  | None => (<[endpoint := newBreaker]> cbs, newBreaker)
  end.

(** [circuitBreakers] is the object literal [{}] (line 39): the test
    [!circuitBreakers[endpoint]] of line 61 also finds the properties the
    object inherits from [Object.prototype].  For an [endpoint] with one of
    these names no entry is created and the counters are fields of the
    inherited value; [getCircuitBreaker] above is the code for every other
    [endpoint]. *)
Definition inheritedNames : list string :=
  [ "constructor"; "hasOwnProperty"; "isPrototypeOf"; "propertyIsEnumerable";
    "toLocaleString"; "toString"; "valueOf"; "__proto__";
    "__defineGetter__"; "__defineSetter__";
    "__lookupGetter__"; "__lookupSetter__" ].

Definition inheritedName (endpoint : string) : bool :=
  existsb (String.eqb endpoint) inheritedNames.

(** In [Date.now() - breaker.lastFailureTime] a [null] operand is 0. *)
Definition timeOrNull (t : option Z) : Z :=
  match t with Some z => z | None => 0 end.

Definition shouldAttemptReset (b : Breaker) (now : Z) : bool :=
  match state b with
  | OPEN => CIRCUIT_BREAKER_TIMEOUT <? now - timeOrNull (lastFailureTime b)
  | _ => false
  end.

Definition getCachedResponse (cache : gmap string CacheEntry) (cacheKey : string)
    (now : Z) : option ResponseData :=
  match cache !! cacheKey with
  | Some cached =>
      if now - ce_timestamp cached <? CACHE_TTL
      then Some (CachedData (ce_data cached) (now - ce_timestamp cached))
      else None
  | None => None
  end.

Definition cacheResponse (cache : gmap string CacheEntry) (cacheKey : string)
    (d : Payload) (now : Z) : gmap string CacheEntry :=
  <[cacheKey := mkCacheEntry d now]> cache.

(** [endpoint.includes(key)] *)
Fixpoint includes (key s : string) : bool :=
  String.prefix key s ||
  match s with
  | EmptyString => false
  | String _ s' => includes key s'
  end.

Definition getFallbackResponse (endpoint : string) (m : Method) (now : Z) : Response :=
  match List.find (fun kv => includes (fst kv) endpoint || String.prefix (fst kv) endpoint)
                  fallbackData with
  | Some (_, body) =>
      mkResponse (FallbackBody body endpoint now) (Some 200) (Some "OK (Fallback)")
  | None =>
      mkResponse
        (FallbackBody
           (mkCanned false false
              "Service temporarily unavailable. Please try again later.")
           endpoint now)
        (Some 503) (Some "Service Unavailable (Fallback)")
  end.

Definition cacheKeyOf (m : Method) (endpoint : string) : string :=
  method_str m +:+ ":" +:+ endpoint.

(** ** The retry loop (lines 135-152) *)

(** [error.response?.status >= 500] *)
Definition statusAtLeast500 (st : option Z) : bool :=
  match st with Some n => 500 <=? n | None => false end.

(** [error.response?.status >= 500 && error.response?.status < 600] *)
Definition status5xx (st : option Z) : bool :=
  match st with Some n => (500 <=? n) && (n <? 600) | None => false end.

(** [!error.response] *)
Definition noResponse (st : option Z) : bool :=
  match st with Some _ => false | None => true end.

(** The error of a failed live attempt. The wording of the message axios
    gives it is not tracked. *)
Definition errorOf (config : Config) (st : option Z) (request : bool) : AxiosError :=
  mkError (Some config) st request "Request failed".

(** A response as bare [axios] or the success handler returns it. The
    status text sent by the server is not tracked. *)
Definition liveResponse (st : Z) (body : Payload) : Response :=
  mkResponse (ServerData body) (Some st) None.

Inductive RetryResult :=
| RetryReturn (r : Response)
| RetryThrow (e : AxiosError).

(** What one run of [retryRequest] did: its result and the delays it slept,
    in order. It calls bare [axios] once more than it sleeps. *)
Record RetryRun := mkRetryRun {
  rr_result : RetryResult;
  rr_delays : list Z
}.

Definition rr_calls (r : RetryRun) : nat := S (length (rr_delays r)).

(** [net a] is the outcome of the call [axios(config)] made by attempt [a].
    [left] is [RETRY_ATTEMPTS - attempt]: the test [attempt < RETRY_ATTEMPTS]
    is the test that [left] is a successor. *)
Fixpoint retryFrom (left : nat) (config : Config) (net : nat -> NetOutcome)
    (attempt : nat) : RetryRun :=
  match net attempt with
  | NetOk st body => mkRetryRun (RetryReturn (liveResponse st body)) []
  | NetFail st rq =>
      match left with
      | S left' =>
          if status5xx st then
            let delay := RETRY_DELAY * 2 ^ (Z.of_nat attempt - 1) in
            let rest := retryFrom left' config net (S attempt) in
            mkRetryRun (rr_result rest) (delay :: rr_delays rest)
          else mkRetryRun (RetryThrow (errorOf config st rq)) []
      | O => mkRetryRun (RetryThrow (errorOf config st rq)) []
      end
  end.

Definition retryRequest (config : Config) (net : nat -> NetOutcome) (attempt : nat)
  : RetryRun :=
  retryFrom (RETRY_ATTEMPTS - attempt) config net attempt.

(** ** The request interceptor (lines 154-274) *)

Inductive Intercepted :=
| Proceed (config : Config)
| Throw (t : Thrown).

Definition setState (b : Breaker) (s : CircuitStates) : Breaker :=
  mkBreaker s (failureCount b) (lastFailureTime b) (lastSuccessTime b).

(** Lines 162-188: the breaker check. [None] means the request goes on. *)
Definition breakerGate (cbs : gmap string Breaker) (cache : gmap string CacheEntry)
    (config : Config) (now : Z) : gmap string Breaker * option Thrown :=
  let endpoint := url config in
  let cacheKey := cacheKeyOf (method config) endpoint in
  let '(cbs, breaker) := getCircuitBreaker cbs endpoint in
  match state breaker with
  | OPEN =>
      if shouldAttemptReset breaker now
      then (<[endpoint := setState breaker HALF_OPEN]> cbs, None)
      else
        match getCachedResponse cache cacheKey now with
        | Some cachedResponse =>
            (cbs, Some (MockResponse
                          (mkResponse cachedResponse (Some 200) (Some "OK (Cached)"))))
        | None =>
            (cbs, Some (MockResponse (getFallbackResponse endpoint (method config) now)))
        end
  | _ => (cbs, None)
  end.

(** [new axios.Cancel(...)]: no config, no response, no request. *)
Definition cancelError (endpoint : string) : AxiosError :=
  mkError None None false ("Circuit breaker: Too many calls to " +:+ endpoint).

(** Lines 190-247: the throttle. *)
Definition throttleGate (rc : gmap string Window) (cache : gmap string CacheEntry)
    (config : Config) (now : Z) : gmap string Window * option Thrown :=
  let endpoint := url config in
  let cacheKey := cacheKeyOf (method config) endpoint in
  match rc !! endpoint with
  | Some w =>
      if now - time w <? THROTTLE_WINDOW then
        let w' := mkWindow (time w) (count w + 1) (lastResponse w) in
        let rc' := <[endpoint := w']> rc in
        if MAX_CALLS_PER_WINDOW <? count w' then
          match getCachedResponse cache cacheKey now with
          | Some cachedResponse =>
              (rc', Some (MockResponse
                            (mkResponse cachedResponse (Some 200) (Some "OK (Cached)"))))
          | None =>
              if truthy (lastResponse w') then
                (rc', Some (MockResponse
                              (mkResponse (ServerData (lastResponse w')) (Some 200)
                                          (Some "OK (Throttled Cache)"))))
              else (rc', Some (Err (cancelError endpoint)))
          end
        else (rc', None)
      else (<[endpoint := mkWindow now 1 JNull]> rc, None)
  | None => (<[endpoint := mkWindow now 1 JNull]> rc, None)
  end.

(** The rejection the caller gets for the cancellation: the error has no
    config, hence no endpoint, the default method and no breaker state. *)
Definition throttleRejection (endpoint : string) : EnhancedError :=
  mkEnhanced None false None GET None true
             ("Circuit breaker: Too many calls to " +:+ endpoint).

Definition deprecatedResponse : Response :=
  mkResponse (PlainBody (mkCanned true false "Deprecated endpoint - use /settings instead"))
             None None.

(** The fulfilled handler of the request interceptor. Attaching the
    [Authorization] header does not touch the stores and is left out. *)
Definition requestInterceptor (s : Store) (config : Config) (now : Z)
  : Store * Intercepted :=
  let '(cbs, thrown) := breakerGate (circuitBreakers s) (responseCache s) config now in
  match thrown with
  | Some t => (mkStore cbs (responseCache s) (recentCalls s), Throw t)
  | None =>
      let '(rc, thrown) := throttleGate (recentCalls s) (responseCache s) config now in
      let s' := mkStore cbs (responseCache s) rc in
      match thrown with
      | Some t => (s', Throw t)
      | None =>
          if String.eqb (url config) "/settings/defaults"
          then (s', Throw (MockResponse deprecatedResponse))
          else (s', Proceed config)
      end
  end.

(** ** The response interceptor (lines 276-425) *)

(** Lines 278-307: the fulfilled handler, run on a live response to a
    request made with [config]. *)
Definition onFulfilled (s : Store) (config : Config) (st : Z) (body : Payload) (now : Z)
  : Store * Response :=
  let endpoint := url config in
  let cacheKey := cacheKeyOf (method config) endpoint in
  let '(cbs, breaker) := getCircuitBreaker (circuitBreakers s) endpoint in
  let cbs :=
    match state breaker with
    | HALF_OPEN =>
        <[endpoint := mkBreaker CLOSED 0 (lastFailureTime breaker) (Some now)]> cbs
    | CLOSED =>
        <[endpoint := mkBreaker CLOSED 0 (lastFailureTime breaker) (Some now)]> cbs
    | OPEN => cbs
    end in
  let cache :=
    if is_GET (method config) && truthy body && (st =? 200)
    then cacheResponse (responseCache s) cacheKey body now
    else responseCache s in
  let rc :=
    match recentCalls s !! endpoint with
    | Some w => <[endpoint := mkWindow (time w) (count w) body]> (recentCalls s)
    | None => recentCalls s
    end in
  (mkStore cbs cache rc, liveResponse st body).

(** [if (endpoint)]: a string is truthy unless empty. *)
Definition nonEmpty (s : string) : bool := negb (String.eqb s "").

(** Lines 314-332: the breaker update of the rejection handler. *)
Definition recordFailure (s : Store) (error : AxiosError) (now : Z) : Store :=
  match err_config error with
  | Some config =>
      let endpoint := url config in
      if nonEmpty endpoint then
        let '(cbs, breaker) := getCircuitBreaker (circuitBreakers s) endpoint in
        let isServerError := statusAtLeast500 (err_status error) in
        let isNetworkError := noResponse (err_status error) && err_request error in
        if isServerError || isNetworkError then
          let n := failureCount breaker + 1 in
          let b := mkBreaker (if CIRCUIT_BREAKER_THRESHOLD <=? n then OPEN else state breaker)
                             n (Some now) (lastSuccessTime breaker) in
          mkStore (<[endpoint := b]> cbs) (responseCache s) (recentCalls s)
        else mkStore cbs (responseCache s) (recentCalls s)
      else s
  | None => s
  end.

(** Lines 373-423: the rejection built for the caller. Reading
    [getCircuitBreaker(endpoint).state] creates the entry if it is missing.
    Logging and the logout signal on a 401 are outside the stores. *)
Definition reject (s : Store) (endpoint : option string) (m : Method) (error : AxiosError)
  : Store * Settled :=
  let '(s, cs) :=
    match endpoint with
    | Some ep =>
        if nonEmpty ep then
          let '(cbs, breaker) := getCircuitBreaker (circuitBreakers s) ep in
          (mkStore cbs (responseCache s) (recentCalls s), Some (state breaker))
        else (s, None)
    | None => (s, None)
    end in
  (s, Rejected (mkEnhanced (err_status error)
                           (noResponse (err_status error) && err_request error)
                           endpoint m cs true (err_message error))).

(** Lines 344-423: what the rejection handler does with the final [error];
    [endpoint] and [method] are those of the error it was entered with. *)
Definition settle (s : Store) (endpoint : option string) (m : Method)
    (error : AxiosError) (now : Z) : Store * Settled :=
  match endpoint with
  | Some ep =>
      if nonEmpty ep && (statusAtLeast500 (err_status error) || noResponse (err_status error))
      then
        match getCachedResponse (responseCache s) (cacheKeyOf m ep) now with
        | Some cachedResponse =>
            (s, Resolved (mkResponse cachedResponse (Some 200) (Some "OK (Cached Fallback)")))
        | None =>
            if is_GET m then (s, Resolved (getFallbackResponse ep m now))
            else reject s endpoint m error
        end
      else reject s endpoint m error
  | None => reject s endpoint m error
  end.

(** Lines 308-425: the rejection handler. [now] is the clock when it is
    entered; [later] the clock when the awaited [retryRequest] has thrown.
    The third component is the number of live calls it made. *)
Definition onRejected (s : Store) (t : Thrown) (now : Z)
    (net : nat -> NetOutcome) (later : Z) : Store * Settled * nat :=
  match t with
  | MockResponse r => (s, Resolved r, O)
  | Err error =>
      let endpoint := url <$> err_config error in
      let m := from_option method GET (err_config error) in
      let s := recordFailure s error now in
      match err_config error with
      | Some config =>
          if status5xx (err_status error) then
            let run := retryRequest config net 1 in
            match rr_result run with
            | RetryReturn retryResponse => (s, Resolved retryResponse, rr_calls run)
            | RetryThrow retryError =>
                (settle s endpoint m retryError later, rr_calls run)
            end
          else (settle s endpoint m error now, O)
      | None => (settle s endpoint m error now, O)
      end
  end.

(** ** One logical call, run to completion *)

(** What the environment contributes to one call: the clock at each
    handler and the outcome of each live attempt. *)
Record Run := mkRun {
  t_request : Z;
  first : NetOutcome;
  t_response : Z;
  retries : nat -> NetOutcome;
  t_settled : Z
}.

(** [API(config)]: request interceptor, live call, response interceptor.
    The third component counts the live calls made. *)
Definition dispatch (s : Store) (config : Config) (r : Run) : Store * Settled * nat :=
  let '(s, i) := requestInterceptor s config (t_request r) in
  match i with
  | Throw t => onRejected s t (t_request r) (retries r) (t_settled r)
  | Proceed config =>
      match first r with
      | NetOk st body =>
          let '(s, response) := onFulfilled s config st body (t_response r) in
          (s, Resolved response, 1%nat)
      | NetFail st rq =>
          let '(s, out, n) :=
            onRejected s (Err (errorOf config st rq)) (t_response r) (retries r) (t_settled r) in
          (s, out, S n)
      end
  end.

(** ** Reading the stores *)

(** The breaker a handler sees for [endpoint]: the entry, or the fresh one
    that [getCircuitBreaker] would create. *)
Definition breakerAt (cbs : gmap string Breaker) (endpoint : string) : Breaker :=
  snd (getCircuitBreaker cbs endpoint).

(** Two maps that agree at every key but [k0]. *)
Definition agreeOff {V : Type} (k0 : string) (m m' : gmap string V) : Prop :=
  forall k, k <> k0 -> m' !! k = m !! k.

(** The error a live call ends with, [None] if one of its attempts
    succeeds: the error of the first attempt unless it is retried, else the
    error [retryRequest] throws. *)
Definition liveFailure (config : Config) (r : Run) : option AxiosError :=
  match first r with
  | NetOk _ _ => None
  | NetFail st rq =>
      if status5xx st then
        match rr_result (retryRequest config (retries r) 1) with
        | RetryReturn _ => None
        | RetryThrow e => Some e
        end
      else Some (errorOf config st rq)
  end.

(** [isServerError || isNetworkError] of the rejection handler. *)
Definition countsAsFailure (e : AxiosError) : bool :=
  statusAtLeast500 (err_status e) || (noResponse (err_status e) && err_request e).

(** Stores that the handlers can produce from the empty one, in any
    interleaving: the rejection handler is split at its [await]. *)
Inductive reachable : Store -> Prop :=
| reach_init : reachable emptyStore
| reach_request s config now :
    reachable s -> reachable (fst (requestInterceptor s config now))
| reach_fulfilled s config st body now :
    reachable s -> reachable (fst (onFulfilled s config st body now))
| reach_record s error now :
    reachable s -> reachable (recordFailure s error now)
| reach_settle s endpoint m error now :
    reachable s -> reachable (fst (settle s endpoint m error now)).

(** A breaker that is not CLOSED has reached the threshold and carries the
    time of its last failure; a CLOSED one is below the threshold. *)
Definition breakerOk (b : Breaker) : Prop :=
  match state b with
  | CLOSED => 0 <= failureCount b < CIRCUIT_BREAKER_THRESHOLD
  | _ => CIRCUIT_BREAKER_THRESHOLD <= failureCount b /\ is_Some (lastFailureTime b)
  end.

Definition storeOk (s : Store) : Prop :=
  forall k b, circuitBreakers s !! k = Some b -> breakerOk b.

(** Scenarios used as concrete inputs. *)
Definition fail503 : NetOutcome := NetFail (Some 503) true.
Definition fail404 : NetOutcome := NetFail (Some 404) true.
Definition ok200 : NetOutcome := NetOk 200 (JObj "{...}").

(** Every attempt fails with 503 / the first attempt fails with 404 / the
    first attempt succeeds; all clocks read [t]. *)
Definition runFail (t : Z) : Run := mkRun t fail503 t (fun _ => fail503) t.
Definition runNotFound (t : Z) : Run := mkRun t fail404 t (fun _ => fail404) t.
Definition runOk (t : Z) : Run := mkRun t ok200 t (fun _ => fail503) t.

(** The first attempt fails with 503 and the first retry succeeds. *)
Definition runRecover (t : Z) : Run :=
  mkRun t fail503 t (fun a => if Nat.eqb a 1 then ok200 else fail503) t.

(** The first attempt is answered at time 0 with 204 and an empty body. *)
Definition runNoContent : Run :=
  mkRun 0 (NetOk 204 (JStr "")) 0 (fun _ => fail503) 0.

(** [n] calls one after the other, each run to completion. *)
Fixpoint repeatDispatch (n : nat) (s : Store) (config : Config) (r : Run) : Store :=
  match n with
  | O => s
  | S n' => repeatDispatch n' (fst (fst (dispatch s config r))) config r
  end.

(** The store after five POST /expenses calls that failed with 503 at
    time 0. *)
Definition trippedStore : Store :=
  repeatDispatch 5 emptyStore (mkConfig "/expenses" POST) (runFail 0).

(** [s'] differs from [s] at most in the breaker and the window of the path
    of [config] and in the cache entry of its method and path. *)
Definition touchesOnly (config : Config) (s s' : Store) : Prop :=
  agreeOff (url config) (circuitBreakers s) (circuitBreakers s') /\
  agreeOff (url config) (recentCalls s) (recentCalls s') /\
  agreeOff (cacheKeyOf (method config) (url config)) (responseCache s) (responseCache s').

(** [storeOk] on the map of breakers alone. *)
Definition breakersOk (cbs : gmap string Breaker) : Prop :=
  forall k b, cbs !! k = Some b -> breakerOk b.

(** Every key of the cache is the key of a GET. *)
Definition cacheOk (cache : gmap string CacheEntry) : Prop :=
  forall k entry, cache !! k = Some entry -> exists endpoint, k = cacheKeyOf GET endpoint.

(** The store after one GET /settings that succeeded at time 0 and five
    that failed with 503 at time 10. *)
Definition cachedThenTripped : Store :=
  repeatDispatch 5
    (fst (fst (dispatch emptyStore (mkConfig "/settings" GET) (runOk 0))))
    (mkConfig "/settings" GET) (runFail 10).

(** The store [trippedStore] once a GET /expenses has been let through as a
    probe at time 40000, its outcome still pending. *)
Definition probingStore : Store :=
  fst (requestInterceptor trippedStore (mkConfig "/expenses" GET) 40000).

(** The store after ten GET /expenses calls made at time 0, each answered
    with 404. *)
Definition floodedStore : Store :=
  repeatDispatch 10 emptyStore (mkConfig "/expenses" GET) (runNotFound 0).

(** The store after one GET /expenses that succeeded at time 0. *)
Definition warmStore : Store :=
  fst (fst (dispatch emptyStore (mkConfig "/expenses" GET) (runOk 0))).

(** The store after ten calls to /settings/defaults at time 0. *)
Definition deprecatedFlood : Store :=
  repeatDispatch 10 emptyStore (mkConfig "/settings/defaults" GET) (runOk 0).

(** ** Sequences of calls *)

(** Calls made one after the other, each run to completion, every call
    with its own config and environment: the final store and the total
    number of live calls. *)
Fixpoint dispatchAll (s : Store) (calls : list (Config * Run)) : Store * nat :=
  match calls with
  | [] => (s, O)
  | (config, r) :: rest =>
      let '(s1, _, n) := dispatch s config r in
      let '(s2, m) := dispatchAll s1 rest in
      (s2, (n + m)%nat)
  end.



(** ** Error parsing ([frontend/src/utils/errorHandler.js]) *)

(** [ERROR_TYPES] and [ERROR_SEVERITY] *)
Inductive ErrorType :=
  NETWORK | AUTHENTICATION | AUTHORIZATION | VALIDATION | SERVER | CLIENT | UNKNOWN.

Inductive ErrorSeverity := LOW | MEDIUM | HIGH | CRITICAL.

(** An [AppError]. Its random id, its timestamp and the error it wraps are
    not tracked. *)
Record AppError := mkAppError {
  ae_message : string;
  ae_type : ErrorType;
  ae_severity : ErrorSeverity
}.

(** [error.response]: its status and the two fields of its body that
    [parseError] reads, [data?.error] and [data?.message], each the empty
    string when absent or falsy. *)
Record ErrorResponse := mkErrorResponse {
  er_status : Z;
  er_dataError : string;
  er_dataMessage : string
}.

(** An error other than an [AppError]: [error.response], whether
    [error.request] is set, and [error.message] (empty when absent). *)
Record RawError := mkRawError {
  re_response : option ErrorResponse;
  re_request : bool;
  re_message : string
}.

Inductive Caught :=
| IsAppError (a : AppError)
| IsRawError (e : RawError).

(** [a || b] on strings. *)
Definition orElse (a b : string) : string := if nonEmpty a then a else b.

(** Lines 43-92. *)
Definition parseError (c : Caught) : AppError :=
  match c with
  | IsAppError a => a
  | IsRawError error =>
      match re_response error with
      | Some response =>
          let st := er_status response in
          let message :=
            orElse (er_dataError response)
              (orElse (er_dataMessage response)
                 (orElse (re_message error) ("Server error (" +:+ pretty st +:+ ")"))) in
          if st =? 401 then
            mkAppError "Authentication required. Please log in again." AUTHENTICATION HIGH
          else if st =? 403 then
            mkAppError "You do not have permission to perform this action."
                       AUTHORIZATION HIGH
          else if (400 <=? st) && (st <? 500) then mkAppError message VALIDATION MEDIUM
          else if 500 <=? st then
            mkAppError "Server error. Please try again later." SERVER HIGH
          else mkAppError message UNKNOWN MEDIUM
      | None =>
          if re_request error then
            mkAppError "Network error. Please check your connection and try again."
                       NETWORK HIGH
          else if nonEmpty (re_message error) then
            mkAppError (re_message error) CLIENT MEDIUM
          else mkAppError "An unexpected error occurred" UNKNOWN MEDIUM
      end
  end.

(** Lines 97-115. *)
Definition getErrorMessage (c : Caught) : string :=
  let parsedError := parseError c in
  match ae_type parsedError with
  | NETWORK =>
      "Unable to connect to the server. Please check your internet connection."
  | AUTHENTICATION => "Your session has expired. Please log in again."
  | AUTHORIZATION => "You do not have permission to perform this action."
  | VALIDATION =>
      orElse (ae_message parsedError) "Please check your input and try again."
  | SERVER => "Server is temporarily unavailable. Please try again later."
  | _ => orElse (ae_message parsedError) "Something went wrong. Please try again."
  end.

(** The error of the dispatcher as [parseError] sees it; the two fields
    of the response body are not part of the dispatcher's model and are
    given separately. *)
Definition rawOf (e : AxiosError) (dataError dataMessage : string) : RawError :=
  mkRawError (option_map (fun st => mkErrorResponse st dataError dataMessage) (err_status e))
             (err_request e) (err_message e).

(** apiConfig.js, lines 374 and 393-404: whether the rejection handler,
    about to reject with [error], clears the stored credentials and
    dispatches the auth:logout event. *)
Definition signalsLogout (error : AxiosError) (dataError dataMessage : string) : bool :=
  match ae_type (parseError (IsRawError (rawOf error dataError dataMessage))) with
  | AUTHENTICATION => true
  | _ => false
  end.

(** What one call of [onRetry] does. *)
Inductive Attempt (V : Type) :=
| Returned (v : V)
| Raised (c : Caught).

Arguments Returned {V} v.
Arguments Raised {V} c.

(** What [handleError] did: what it returned (the value of a retry that
    succeeded, or the parsed error), the errors it logged, the number of
    logout signals and the number of calls of [onRetry]. The sleeps
    before the retries are not tracked. *)
Record Handled (V : Type) := mkHandled {
  h_result : V + AppError;
  h_logged : list AppError;
  h_logouts : nat;
  h_retries : nat
}.

Arguments mkHandled {V}.
Arguments h_result {V}.
Arguments h_logged {V}.
Arguments h_logouts {V}.
Arguments h_retries {V}.

(** Lines 147-192. [onRetry k] is the outcome of the call of [onRetry]
    made after [k] earlier ones. [left] is the [maxRetries] of the call:
    the test [maxRetries > 0] is the test that it is a successor. *)
Fixpoint handleErrorFrom {V : Type} (left : nat) (error : Caught) (shouldLog : bool)
    (onRetry : option (nat -> Attempt V)) (k : nat) : Handled V :=
  let parsedError := parseError error in
  let logged := if shouldLog then [parsedError] else [] in
  let logouts := match ae_type parsedError with AUTHENTICATION => 1%nat | _ => O end in
  match ae_type parsedError, onRetry, left with
  | NETWORK, Some retry, S left' =>
      match retry k with
      | Returned v => mkHandled (inl v) logged logouts 1
      | Raised retryError =>
          let rest := handleErrorFrom left' retryError shouldLog onRetry (S k) in
          mkHandled (h_result rest) (logged ++ h_logged rest)
                    (logouts + h_logouts rest) (S (h_retries rest))
      end
  | _, _, _ => mkHandled (inr parsedError) logged logouts O
  end.

Definition handleError {V : Type} (error : Caught) (shouldLog : bool)
    (onRetry : option (nat -> Attempt V)) (maxRetries : Z) : Handled V :=
  handleErrorFrom (Z.to_nat maxRetries) error shouldLog onRetry O.

(** ** Log sanitization ([frontend/src/utils/logger.js], lines 18-57) *)

(** A value handed to the logger. Keys and strings are kept as their UTF-8
    bytes. *)
#[local] Set Warnings "-register-all".
Inductive Json :=
| JsNull
| JsBool (b : bool)
| JsNumber (n : Z)
| JsString (s : string)
| JsArray (items : list Json)
| JsObject (entries : list (string * Json)).

(** The patterns of [SENSITIVE_PATTERNS], all of the form [/word/i]. *)
Definition SENSITIVE_PATTERNS : list string :=
  [ "token"; "password"; "secret"; "key"; "auth"; "bearer"; "authorization";
    "credential" ].

(** Case folding of the [i] flag. The patterns are ASCII letters, which a
    regular expression without the [u] flag matches against no character
    outside ASCII, so folding the ASCII capitals of the key is enough. *)
Definition lowerAscii (a : Ascii.ascii) : Ascii.ascii :=
  let n := Ascii.nat_of_ascii a in
  if (65 <=? n)%nat && (n <=? 90)%nat then Ascii.ascii_of_nat (n + 32) else a.

Fixpoint lowerString (s : string) : string :=
  match s with
  | EmptyString => EmptyString
  | String a s' => String (lowerAscii a) (lowerString s')
  end.

(** [SENSITIVE_PATTERNS.some(pattern => pattern.test(key))] *)
Definition isSensitive (key : string) : bool :=
  existsb (fun pattern => includes pattern (lowerString key)) SENSITIVE_PATTERNS.

Definition REDACTED : Json := JsString "[REDACTED]".

Fixpoint sanitizeData (data : Json) : Json :=
  match data with
  | JsArray items => JsArray (map sanitizeData items)
  | JsObject entries =>
      JsObject
        (map (fun entry =>
                let '(key, value) := entry in
                if isSensitive key then (key, REDACTED)
                else
                  match value with
                  | JsArray _ | JsObject _ => (key, sanitizeData value)
                  | _ => (key, value)
                  end)
             entries)
  | _ => data
  end.

(** Whether some object inside [data], at any depth, has a sensitive key
    whose value is anything but the redaction mark. *)
Fixpoint exposes (data : Json) : bool :=
  match data with
  | JsArray items => existsb exposes items
  | JsObject entries =>
      existsb (fun entry =>
                 let '(key, value) := entry in
                 if isSensitive key
                 then match value with
                      | JsString s => negb (String.eqb s "[REDACTED]")
                      | _ => true
                      end
                 else exposes value)
              entries
  | _ => false
  end.


(** ** Secure storage ([frontend/src/utils/logger.js], lines 189-323) *)

(** A JavaScript string that is read character by character is the list
    of its UTF-16 code units. What [localStorage] holds, keys and values,
    is kept as Rocq strings. The functions of the platform are a
    parameter. *)
Record Platform (V : Type) := mkPlatform {
  btoa : list N -> option string;      (* [None]: throws InvalidCharacterError *)
  atob : string -> option (list N);    (* [None]: throws *)
  parseInt : string -> option Z;       (* [None]: NaN *)
  jsonParse : list N -> option V;      (* [None]: throws SyntaxError *)
  jsonStringify : V -> list N
}.

Arguments btoa {V}.
Arguments atob {V}.
Arguments parseInt {V}.
Arguments jsonParse {V}.
Arguments jsonStringify {V}.

(** [n.toString()] of an integer. *)
Definition numberToString (n : Z) : string :=
  DecimalString.NilZero.string_of_int (Z.to_int n).

(** What the model relies on of the platform: [btoa] encodes exactly the
    strings whose code units are at most 255, [atob] decodes what [btoa]
    encoded, the encoding of a string is empty only for the empty string,
    and [parseInt] reads back an integer printed by [toString]. *)
Record PlatformOk {V : Type} (p : Platform V) : Prop := mkPlatformOk {
  btoa_latin1 : forall l, Forall (fun c => (c <= 255)%N) l ->
                          exists s, btoa p l = Some s /\ atob p s = Some l /\
                                    (s = "" <-> l = []);
  btoa_throws : forall l, Exists (fun c => (255 < c)%N) l -> btoa p l = None;
  parseInt_toString : forall n, parseInt p (numberToString n) = Some n
}.

(** [ToInt32] *)
Definition toInt32 (z : Z) : Z := (z + 2 ^ 31) mod 2 ^ 32 - 2 ^ 31.

(** Lines 196-210. [fingerprint] is the concatenation of the user agent,
    the screen size and the time zone. [hash << 5] and [hash & hash] work
    on 32-bit integers; the subtraction and the addition between them are
    exact. The key is [Math.abs(hash).toString(16)]. *)
Definition hashStep (hash : Z) (char : N) : Z :=
  toInt32 (toInt32 (hash * 32) - hash + Z.of_N char).

Definition codeUnitsOf (s : string) : list N :=
  map N_of_ascii (list_ascii_of_string s).

Definition generateKey (fingerprint : list N) : list N :=
  let hash := fold_left hashStep fingerprint 0 in
  codeUnitsOf (HexadecimalString.NilZero.string_of_uint
                 (N.to_hex_uint (Z.to_N (Z.abs hash)))).

(** [this.key.charCodeAt(i % this.key.length)]. For an empty key the index
    is NaN and the character code is NaN, which [^] takes as 0; [nth] at
    [i mod 0 = i] of the empty list gives the same 0. *)
Definition keyCharAt (key : list N) (i : nat) : N :=
  nth (i mod length key) key 0%N.

(** The loop of [encrypt] and of [decrypt]:
    [String.fromCharCode(charCode ^ keyChar)] for the characters from
    index [i] on. *)
Fixpoint xorFrom (key : list N) (i : nat) (text : list N) : list N :=
  match text with
  | [] => []
  | charCode :: rest =>
      (N.lxor charCode (keyCharAt key i) mod 65536)%N :: xorFrom key (S i) rest
  end.

(** Lines 213-223. [None]: [btoa] threw. *)
Definition encrypt {V} (p : Platform V) (key text : list N) : option string :=
  match text with
  | [] => Some ""
  | _ => btoa p (xorFrom key 0 text)
  end.

(** Lines 226-241. *)
Definition decrypt {V} (p : Platform V) (key : list N) (encryptedText : string) : list N :=
  if nonEmpty encryptedText then
    match atob p encryptedText with
    | Some decoded => xorFrom key 0 decoded
    | None => []
    end
  else [].

Definition secureKey (k : string) : string := "secure_" +:+ k.
Definition secureExpKey (k : string) : string := "secure_" +:+ k +:+ "_exp".

Definition DAY : Z := 24 * 60 * 60 * 1000.

(** Lines 244-257. The value is a string or something [JSON.stringify]
    serialises. An exception of [encrypt] is caught and nothing is
    written. The quota of [localStorage] is not modelled. *)
Definition setItem {V} (p : Platform V) (key : list N) (ls : gmap string string)
    (k : string) (value : list N + V) (now : Z) : gmap string string :=
  let stringValue :=
    match value with inl text => text | inr v => jsonStringify p v end in
  match encrypt p key stringValue with
  | Some encrypted =>
      <[secureExpKey k := numberToString (now + DAY)]> (<[secureKey k := encrypted]> ls)
  | None => ls
  end.

(** Lines 286-289. *)
Definition removeItem (ls : gmap string string) (k : string) : gmap string string :=
  delete (secureExpKey k) (delete (secureKey k) ls).

(** [expiration && Date.now() > parseInt(expiration)] *)
Definition expiredAt {V} (p : Platform V) (expiration : option string) (now : Z) : bool :=
  match expiration with
  | Some e =>
      nonEmpty e && match parseInt p e with Some t => t <? now | None => false end
  | None => false
  end.

(** Lines 260-283. The result is [null] ([None]), the value [JSON.parse]
    gives, or the decrypted string itself. *)
Definition getItem {V} (p : Platform V) (key : list N) (ls : gmap string string)
    (k : string) (now : Z) : gmap string string * option (V + list N) :=
  if expiredAt p (ls !! secureExpKey k) now then (removeItem ls k, None)
  else
    match ls !! secureKey k with
    | Some encrypted =>
        if nonEmpty encrypted then
          let decrypted := decrypt p key encrypted in
          match jsonParse p decrypted with
          | Some v => (ls, Some (inl v))
          | None => (ls, Some (inr decrypted))
          end
        else (ls, None)
    | None => (ls, None)
    end.

(** Lines 292-299. *)
Definition clear (ls : gmap string string) : gmap string string :=
  filter (fun entry => String.prefix "secure_" (fst entry) = false) ls.

(** Lines 302-305. *)
Definition isTokenExpired {V} (p : Platform V) (ls : gmap string string) (k : string)
    (now : Z) : bool :=
  match ls !! secureExpKey k with
  | Some e =>
      if nonEmpty e
      then match parseInt p e with Some t => t <? now | None => false end
      else true
  | None => true
  end.

(** apiConfig.js, lines 396-398: what the rejection handler does to
    [localStorage] on an authentication error. *)
Definition logoutCleanup (ls : gmap string string) : gmap string string :=
  delete "user" (delete "token" (clear ls)).

(** ** The Authorization header (apiConfig.js, lines 261-269) *)

(** [getToken()] is [getItem("auth_token")]: [null], the decrypted string,
    or whatever value [JSON.parse] made of it. What the interceptor can
    tell of such a value: it is a string, or it is another value, truthy or
    not. *)
Inductive TokenShape :=
| TokenString (text : list N)
| TokenOther (truthy : bool).

(** [s.startsWith(prefix)] *)
Fixpoint startsWith (s prefix : list N) {struct prefix} : bool :=
  match prefix, s with
  | [], _ => true
  | c :: prefix, d :: s => (c =? d)%N && startsWith s prefix
  | _ :: _, [] => false
  end.

Definition BEARER : list N := codeUnitsOf "Bearer ".

(** [token.startsWith("Bearer ") ? token : `Bearer ${token}`] *)
Definition formatToken (token : list N) : list N :=
  if startsWith token BEARER then token else BEARER ++ token.

(** What lines 264-269 do with the token: no header ([if (token)] fails),
    the header, or the TypeError of [token.startsWith] on a truthy value
    that is not a string. *)
Inductive HeaderOutcome :=
| NoHeader
| Authorization (value : list N)
| StartsWithThrows.

Definition authorizationHeader {V} (shape : V -> TokenShape) (token : option (V + list N))
  : HeaderOutcome :=
  match token with
  | None => NoHeader
  | Some value =>
      match match value with inl v => shape v | inr text => TokenString text end with
      | TokenString [] => NoHeader
      | TokenString text => Authorization (formatToken text)
      | TokenOther truthy => if truthy then StartsWithThrows else NoHeader
      end
  end.

(** A platform for concrete runs: the encoding writes each code unit as
    one byte, [parseInt] reads plain decimal numbers, nothing parses as
    JSON. *)
Definition bytePlatform : Platform unit :=
  mkPlatform unit
    (fun l => if forallb (fun c => (c <=? 255)%N) l
              then Some (string_of_list_ascii (map ascii_of_N l)) else None)
    (fun s => Some (codeUnitsOf s))
    (fun s => option_map Z.of_int (DecimalString.NilZero.int_of_string s))
    (fun _ => None)
    (fun _ => []).

(** The handlers are unfolded by name in the proofs, never by [simpl]. *)
Arguments getCircuitBreaker : simpl never.
Arguments getCachedResponse : simpl never.
Arguments getFallbackResponse : simpl never.
Arguments retryRequest : simpl never.
Arguments breakerGate : simpl never.
Arguments throttleGate : simpl never.
Arguments requestInterceptor : simpl never.
Arguments onFulfilled : simpl never.
Arguments recordFailure : simpl never.
Arguments reject : simpl never.
Arguments settle : simpl never.
Arguments onRejected : simpl never.
Arguments dispatch : simpl never.

(** * Properties *)

(** ** The helpers *)

Lemma getCircuitBreaker_lookup cbs ep :
  fst (getCircuitBreaker cbs ep) !! ep = Some (snd (getCircuitBreaker cbs ep)).
Proof.
  unfold getCircuitBreaker. destruct (cbs !! ep) eqn:E; simpl; [done|].
  by rewrite lookup_insert_eq.
Qed.

Lemma getCircuitBreaker_present cbs ep b :
  cbs !! ep = Some b -> getCircuitBreaker cbs ep = (cbs, b).
Proof. intros E. unfold getCircuitBreaker. by rewrite E. Qed.

Lemma getCircuitBreaker_off cbs ep :
  agreeOff ep cbs (fst (getCircuitBreaker cbs ep)).
Proof.
  intros k Hk. unfold getCircuitBreaker. destruct (cbs !! ep); simpl; [done|].
  by rewrite lookup_insert_ne.
Qed.

Lemma breakerAt_get cbs ep : breakerAt (fst (getCircuitBreaker cbs ep)) ep = breakerAt cbs ep.
Proof.
  unfold breakerAt at 1. unfold getCircuitBreaker at 1.
  rewrite getCircuitBreaker_lookup. done.
Qed.

Lemma breakerAt_fresh_elsewhere cbs ep k :
  breakerAt (fst (getCircuitBreaker cbs ep)) k = breakerAt cbs k.
Proof.
  destruct (decide (k = ep)) as [->|Hk]; [apply breakerAt_get|].
  pose proof (getCircuitBreaker_off cbs ep k Hk) as E.
  unfold breakerAt. unfold getCircuitBreaker at 1. rewrite E.
  unfold getCircuitBreaker. by destruct (cbs !! k).
Qed.

Lemma agreeOff_refl {V} k0 (m : gmap string V) : agreeOff k0 m m.
Proof. by intros k _. Qed.

Lemma agreeOff_trans {V} k0 (m1 m2 m3 : gmap string V) :
  agreeOff k0 m1 m2 -> agreeOff k0 m2 m3 -> agreeOff k0 m1 m3.
Proof. intros H1 H2 k Hk. rewrite H2, H1; done. Qed.

Lemma agreeOff_insert {V} k0 (m : gmap string V) v : agreeOff k0 m (<[k0 := v]> m).
Proof. intros k Hk. by rewrite lookup_insert_ne. Qed.

(** The unfolding of [retryRequest] that the source shows: one call, then
    either return, sleep and recurse, or rethrow. *)
Lemma retryRequest_unfold config net attempt :
  retryRequest config net attempt =
  match net attempt with
  | NetOk st body => mkRetryRun (RetryReturn (liveResponse st body)) []
  | NetFail st rq =>
      if (attempt <? RETRY_ATTEMPTS)%nat && status5xx st then
        let rest := retryRequest config net (S attempt) in
        mkRetryRun (rr_result rest)
                   (RETRY_DELAY * 2 ^ (Z.of_nat attempt - 1) :: rr_delays rest)
      else mkRetryRun (RetryThrow (errorOf config st rq)) []
  end.
Proof.
  unfold retryRequest.
  destruct (attempt <? RETRY_ATTEMPTS)%nat eqn:E.
  - apply Nat.ltb_lt in E.
    replace (RETRY_ATTEMPTS - attempt)%nat with (S (RETRY_ATTEMPTS - S attempt)) by lia.
    simpl. destruct (net attempt); [done|]. by destruct (status5xx st).
  - apply Nat.ltb_ge in E.
    replace (RETRY_ATTEMPTS - attempt)%nat with O by lia.
    simpl. by destruct (net attempt).
Qed.

(** [retryRequest(config)] never makes more than [RETRY_ATTEMPTS] calls. *)
Lemma retryRequest_calls_bound config net :
  (rr_calls (retryRequest config net 1) <= RETRY_ATTEMPTS)%nat.
Proof.
  unfold retryRequest, rr_calls, RETRY_ATTEMPTS. simpl.
  repeat (match goal with
          | |- context [match net ?a with _ => _ end] => destruct (net a)
          | |- context [if status5xx ?s then _ else _] => destruct (status5xx s)
          end; simpl; try lia).
Qed.

(** An error thrown by [retryRequest] is the error of one of its attempts:
    it carries the config it was called with. *)
Lemma retryFrom_throw_config left config net attempt e :
  rr_result (retryFrom left config net attempt) = RetryThrow e ->
  err_config e = Some config.
Proof.
  revert attempt. induction left as [|left IH]; intros attempt; simpl.
  - destruct (net attempt); simpl; [done|]. by intros [= <-].
  - destruct (net attempt); simpl; [done|].
    destruct (status5xx st); simpl; [apply IH|]. by intros [= <-].
Qed.

(** ** Frame: a handler only touches the entries of its own request *)

Lemma touchesOnly_refl config s : touchesOnly config s s.
Proof. repeat split; apply agreeOff_refl. Qed.

Lemma touchesOnly_trans config s1 s2 s3 :
  touchesOnly config s1 s2 -> touchesOnly config s2 s3 -> touchesOnly config s1 s3.
Proof.
  intros (A1 & B1 & C1) (A2 & B2 & C2).
  repeat split; eapply agreeOff_trans; eauto.
Qed.

Lemma breakerGate_off cbs cache config now :
  agreeOff (url config) cbs (fst (breakerGate cbs cache config now)).
Proof.
  unfold breakerGate.
  pose proof (getCircuitBreaker_off cbs (url config)) as H.
  destruct (getCircuitBreaker cbs (url config)) as [cbs' b]; simpl in H.
  destruct (state b); simpl; try done.
  destruct (shouldAttemptReset b now); simpl.
  - eapply agreeOff_trans; [exact H|apply agreeOff_insert].
  - by destruct (getCachedResponse _ _ _).
Qed.

Lemma throttleGate_off rc cache config now :
  agreeOff (url config) rc (fst (throttleGate rc cache config now)).
Proof.
  unfold throttleGate.
  destruct (rc !! url config) as [w|]; [|apply agreeOff_insert].
  destruct (_ <? THROTTLE_WINDOW); [|apply agreeOff_insert].
  simpl. destruct (MAX_CALLS_PER_WINDOW <? _); [|apply agreeOff_insert].
  destruct (getCachedResponse _ _ _); [apply agreeOff_insert|].
  destruct (truthy _); apply agreeOff_insert.
Qed.

Lemma requestInterceptor_stores s config now :
  let s' := fst (requestInterceptor s config now) in
  circuitBreakers s' = fst (breakerGate (circuitBreakers s) (responseCache s) config now) /\
  responseCache s' = responseCache s /\
  (recentCalls s' = recentCalls s \/
   recentCalls s' = fst (throttleGate (recentCalls s) (responseCache s) config now)).
Proof.
  unfold requestInterceptor.
  destruct (breakerGate _ _ _ _) as [cbs [t|]]; simpl; [auto|].
  destruct (throttleGate _ _ _ _) as [rc [t|]]; simpl; [auto|].
  destruct (String.eqb _ _); simpl; auto.
Qed.

Lemma requestInterceptor_frame s config now :
  touchesOnly config s (fst (requestInterceptor s config now)).
Proof.
  destruct (requestInterceptor_stores s config now) as (A & B & C).
  unfold touchesOnly. rewrite A, B. split; [apply breakerGate_off|].
  split; [|apply agreeOff_refl].
  destruct C as [-> | ->]; [apply agreeOff_refl|apply throttleGate_off].
Qed.

Lemma onFulfilled_frame s config st body now :
  touchesOnly config s (fst (onFulfilled s config st body now)).
Proof.
  unfold onFulfilled, touchesOnly.
  pose proof (getCircuitBreaker_off (circuitBreakers s) (url config)) as H.
  destruct (getCircuitBreaker _ _) as [cbs b]; simpl in *.
  repeat split.
  - destruct (state b); try done;
      (eapply agreeOff_trans; [exact H|apply agreeOff_insert]).
  - destruct (recentCalls s !! url config); [apply agreeOff_insert|apply agreeOff_refl].
  - destruct (_ && _); [apply agreeOff_insert|apply agreeOff_refl].
Qed.

Lemma recordFailure_frame s config st rq now :
  touchesOnly config s (recordFailure s (errorOf config st rq) now).
Proof.
  unfold recordFailure, touchesOnly. simpl.
  destruct (nonEmpty (url config)); [|repeat split; apply agreeOff_refl].
  pose proof (getCircuitBreaker_off (circuitBreakers s) (url config)) as H.
  destruct (getCircuitBreaker _ _) as [cbs b]; simpl in *.
  destruct (_ || _); simpl; repeat split; try apply agreeOff_refl; [|done].
  eapply agreeOff_trans; [exact H|apply agreeOff_insert].
Qed.

Lemma reject_frame s config m error :
  touchesOnly config s (fst (reject s (Some (url config)) m error)).
Proof.
  unfold reject, touchesOnly.
  destruct (nonEmpty (url config)); simpl; [|repeat split; apply agreeOff_refl].
  pose proof (getCircuitBreaker_off (circuitBreakers s) (url config)) as H.
  destruct (getCircuitBreaker _ _) as [cbs b]; simpl in *.
  repeat split; try apply agreeOff_refl; done.
Qed.

Lemma settle_frame s config m error now :
  touchesOnly config s (fst (settle s (Some (url config)) m error now)).
Proof.
  unfold settle.
  destruct (_ && _); [|apply reject_frame].
  destruct (getCachedResponse _ _ _); [apply touchesOnly_refl|].
  destruct (is_GET m); [apply touchesOnly_refl|apply reject_frame].
Qed.

Lemma onRejected_frame s config st rq now net later :
  touchesOnly config s
    (fst (fst (onRejected s (Err (errorOf config st rq)) now net later))).
Proof.
  unfold onRejected.
  cbn [errorOf err_config err_status fmap option_fmap option_map from_option].
  pose proof (recordFailure_frame s config st rq now) as H.
  destruct (status5xx st).
  - destruct (rr_result _); cbn [fst]; [done|].
    eapply touchesOnly_trans; [exact H|apply settle_frame].
  - cbn [fst]. eapply touchesOnly_trans; [exact H|apply settle_frame].
Qed.

(** What the request interceptor throws is a mock response or the
    cancellation, which carries no config. *)
Lemma breakerGate_throws cbs cache config now t :
  snd (breakerGate cbs cache config now) = Some t -> exists r, t = MockResponse r.
Proof.
  unfold breakerGate. destruct (getCircuitBreaker _ _) as [cbs' b].
  destruct (state b); simpl; try done.
  destruct (shouldAttemptReset b now); simpl; [done|].
  destruct (getCachedResponse _ _ _); simpl; intros [= <-]; eauto.
Qed.

Lemma throttleGate_throws rc cache config now t :
  snd (throttleGate rc cache config now) = Some t ->
  (exists r, t = MockResponse r) \/ t = Err (cancelError (url config)).
Proof.
  unfold throttleGate.
  destruct (rc !! url config) as [w|]; simpl; [|done].
  destruct (_ <? THROTTLE_WINDOW); simpl; [|done].
  destruct (MAX_CALLS_PER_WINDOW <? _); simpl; [|done].
  destruct (getCachedResponse _ _ _); simpl; [intros [= <-]; eauto|].
  destruct (truthy _); simpl; intros [= <-]; eauto.
Qed.

Lemma requestInterceptor_throws s config now t :
  snd (requestInterceptor s config now) = Throw t ->
  (exists r, t = MockResponse r) \/ t = Err (cancelError (url config)).
Proof.
  unfold requestInterceptor.
  pose proof (breakerGate_throws (circuitBreakers s) (responseCache s) config now) as H1.
  pose proof (throttleGate_throws (recentCalls s) (responseCache s) config now) as H2.
  destruct (breakerGate _ _ _ _) as [cbs [t1|]]; simpl in *.
  { intros [= <-]. left. by apply H1. }
  destruct (throttleGate _ _ _ _) as [rc [t2|]]; simpl in *.
  { intros [= <-]. by apply H2. }
  destruct (String.eqb _ _); simpl; [|done].
  intros [= <-]. eauto.
Qed.

Lemma requestInterceptor_proceeds s config now c :
  snd (requestInterceptor s config now) = Proceed c -> c = config.
Proof.
  unfold requestInterceptor.
  destruct (breakerGate _ _ _ _) as [cbs [t|]]; simpl; [done|].
  destruct (throttleGate _ _ _ _) as [rc [t|]]; simpl; [done|].
  destruct (String.eqb _ _); simpl; [done|]. by intros [= <-].
Qed.

Lemma onRejected_thrown s config now t net later :
  (exists r, t = MockResponse r) \/ t = Err (cancelError (url config)) ->
  fst (fst (onRejected s t now net later)) = s /\
  snd (onRejected s t now net later) = O.
Proof. intros [[r ->] | ->]; done. Qed.

Lemma dispatch_frame s config r :
  touchesOnly config s (fst (fst (dispatch s config r))).
Proof.
  unfold dispatch.
  pose proof (requestInterceptor_frame s config (t_request r)) as H1.
  pose proof (requestInterceptor_throws s config (t_request r)) as H2.
  pose proof (requestInterceptor_proceeds s config (t_request r)) as H3.
  destruct (requestInterceptor _ _ _) as [s1 [c|t]]; simpl in *.
  - rewrite (H3 c eq_refl). destruct (first r) as [st body|st rq].
    + pose proof (onFulfilled_frame s1 config st body (t_response r)) as H4.
      destruct (onFulfilled _ _ _ _ _); simpl in *.
      eapply touchesOnly_trans; eauto.
    + pose proof (onRejected_frame s1 config st rq (t_response r) (retries r) (t_settled r)) as H4.
      destruct (onRejected _ _ _ _ _) as [[s2 o] n]; simpl in *.
      eapply touchesOnly_trans; eauto.
  - destruct (onRejected_thrown s1 config (t_request r) t (retries r) (t_settled r) (H2 t eq_refl))
      as [E _].
    by rewrite E.
Qed.

(** ** Invariant of the breakers *)

Lemma breakersOk_insert cbs k b :
  breakersOk cbs -> breakerOk b -> breakersOk (<[k := b]> cbs).
Proof.
  intros H Hb k' b'. rewrite lookup_insert. case_decide; [by intros [= <-]|apply H].
Qed.

Lemma breakerOk_new : breakerOk newBreaker.
Proof. unfold breakerOk, newBreaker, CIRCUIT_BREAKER_THRESHOLD. simpl. lia. Qed.

Lemma breakersOk_get cbs ep :
  breakersOk cbs ->
  breakersOk (fst (getCircuitBreaker cbs ep)) /\ breakerOk (snd (getCircuitBreaker cbs ep)).
Proof.
  intros H. unfold getCircuitBreaker. destruct (cbs !! ep) eqn:E; simpl.
  - split; [done|by apply (H ep)].
  - split; [apply breakersOk_insert; [done|]|]; apply breakerOk_new.
Qed.

Lemma breakerOk_half_open b :
  state b = OPEN -> breakerOk b -> breakerOk (setState b HALF_OPEN).
Proof. unfold breakerOk. intros ->. done. Qed.

Lemma breakerGate_ok cbs cache config now :
  breakersOk cbs -> breakersOk (fst (breakerGate cbs cache config now)).
Proof.
  intros H. unfold breakerGate.
  destruct (breakersOk_get cbs (url config) H) as [H1 H2].
  destruct (getCircuitBreaker cbs (url config)) as [cbs' b]; simpl in *.
  destruct (state b) eqn:E; simpl; try done.
  destruct (shouldAttemptReset b now); simpl.
  - apply breakersOk_insert; [done|by apply breakerOk_half_open].
  - by destruct (getCachedResponse _ _ _).
Qed.

Lemma breakerOk_failure b now :
  breakerOk b ->
  breakerOk (mkBreaker (if CIRCUIT_BREAKER_THRESHOLD <=? failureCount b + 1
                        then OPEN else state b)
                       (failureCount b + 1) (Some now) (lastSuccessTime b)).
Proof.
  unfold breakerOk. simpl.
  destruct (Z.leb_spec CIRCUIT_BREAKER_THRESHOLD (failureCount b + 1)); simpl.
  - split; [lia|eauto].
  - destruct (state b); lia.
Qed.

Lemma recordFailure_ok s error now :
  storeOk s -> storeOk (recordFailure s error now).
Proof.
  intros H. unfold recordFailure.
  destruct (err_config error) as [config|]; [|done].
  destruct (nonEmpty _); [|done].
  destruct (breakersOk_get (circuitBreakers s) (url config) H) as [H1 H2].
  destruct (getCircuitBreaker _ _) as [cbs b]; simpl in *.
  destruct (_ || _); unfold storeOk; simpl; [|done].
  apply breakersOk_insert; [done|by apply breakerOk_failure].
Qed.

Lemma reject_ok s endpoint m error : storeOk s -> storeOk (fst (reject s endpoint m error)).
Proof.
  intros H. unfold reject. destruct endpoint as [ep|]; [|done].
  destruct (nonEmpty ep); [|done].
  destruct (breakersOk_get (circuitBreakers s) ep H) as [H1 H2].
  by destruct (getCircuitBreaker _ _) as [cbs b].
Qed.

Lemma settle_ok s endpoint m error now :
  storeOk s -> storeOk (fst (settle s endpoint m error now)).
Proof.
  intros H. unfold settle. destruct endpoint as [ep|]; [|by apply reject_ok].
  destruct (_ && _); [|by apply reject_ok].
  destruct (getCachedResponse _ _ _); [done|].
  destruct (is_GET m); [done|by apply reject_ok].
Qed.

Lemma onFulfilled_ok s config st body now :
  storeOk s -> storeOk (fst (onFulfilled s config st body now)).
Proof.
  intros H. unfold onFulfilled.
  destruct (breakersOk_get (circuitBreakers s) (url config) H) as [H1 H2].
  destruct (getCircuitBreaker _ _) as [cbs b]; simpl in *.
  unfold storeOk; simpl.
  destruct (state b); try done; (apply breakersOk_insert; [done|]);
    unfold breakerOk, CIRCUIT_BREAKER_THRESHOLD; simpl; lia.
Qed.

Lemma requestInterceptor_ok s config now :
  storeOk s -> storeOk (fst (requestInterceptor s config now)).
Proof.
  intros H. destruct (requestInterceptor_stores s config now) as (A & _ & _).
  unfold storeOk. rewrite A. by apply breakerGate_ok.
Qed.

(** In every reachable store a breaker that is OPEN or HALF_OPEN has at
    least [CIRCUIT_BREAKER_THRESHOLD] failures on record. *)
Lemma reachable_storeOk s : reachable s -> storeOk s.
Proof.
  induction 1.
  - intros k b. unfold emptyStore. simpl. by rewrite lookup_empty.
  - by apply requestInterceptor_ok.
  - by apply onFulfilled_ok.
  - by apply recordFailure_ok.
  - by apply settle_ok.
Qed.

(** ** What the gates decide *)

Lemma breakerGate_open_wait cbs cache config now b :
  cbs !! url config = Some b -> state b = OPEN -> shouldAttemptReset b now = false ->
  breakerGate cbs cache config now =
  (cbs, Some (MockResponse
                match getCachedResponse cache (cacheKeyOf (method config) (url config)) now with
                | Some cachedResponse =>
                    mkResponse cachedResponse (Some 200) (Some "OK (Cached)")
                | None => getFallbackResponse (url config) (method config) now
                end)).
Proof.
  intros E Hs Hr. unfold breakerGate. rewrite (getCircuitBreaker_present _ _ _ E).
  rewrite Hs, Hr. by destruct (getCachedResponse _ _ _).
Qed.

Lemma breakerGate_open_probe cbs cache config now b :
  cbs !! url config = Some b -> state b = OPEN -> shouldAttemptReset b now = true ->
  breakerGate cbs cache config now = (<[url config := setState b HALF_OPEN]> cbs, None).
Proof.
  intros E Hs Hr. unfold breakerGate. rewrite (getCircuitBreaker_present _ _ _ E).
  by rewrite Hs, Hr.
Qed.

Lemma breakerGate_not_open cbs cache config now b :
  cbs !! url config = Some b -> state b <> OPEN ->
  breakerGate cbs cache config now = (cbs, None).
Proof.
  intros E Hs. unfold breakerGate. rewrite (getCircuitBreaker_present _ _ _ E).
  by destruct (state b).
Qed.

(** A request that the breaker lets through leaves a breaker that is not
    OPEN. *)
Lemma breakerGate_pass cbs cache config now :
  snd (breakerGate cbs cache config now) = None ->
  exists b, fst (breakerGate cbs cache config now) !! url config = Some b /\
            state b <> OPEN /\
            failureCount b = failureCount (breakerAt cbs (url config)) /\
            lastFailureTime b = lastFailureTime (breakerAt cbs (url config)) /\
            lastSuccessTime b = lastSuccessTime (breakerAt cbs (url config)).
Proof.
  unfold breakerGate, breakerAt.
  pose proof (getCircuitBreaker_lookup cbs (url config)) as L.
  destruct (getCircuitBreaker cbs (url config)) as [cbs' b]; simpl in *.
  destruct (state b) eqn:E; simpl.
  - intros _. exists b. rewrite E. done.
  - destruct (shouldAttemptReset b now); simpl.
    + intros _. exists (setState b HALF_OPEN). by rewrite lookup_insert_eq.
    + by destruct (getCachedResponse _ _ _).
  - intros _. exists b. rewrite E. done.
Qed.

Lemma requestInterceptor_proceed_inv s config now c :
  snd (requestInterceptor s config now) = Proceed c ->
  snd (breakerGate (circuitBreakers s) (responseCache s) config now) = None /\
  snd (throttleGate (recentCalls s) (responseCache s) config now) = None /\
  fst (requestInterceptor s config now) =
    mkStore (fst (breakerGate (circuitBreakers s) (responseCache s) config now))
            (responseCache s)
            (fst (throttleGate (recentCalls s) (responseCache s) config now)).
Proof.
  unfold requestInterceptor.
  destruct (breakerGate _ _ _ _) as [cbs [t|]]; simpl; [done|].
  destruct (throttleGate _ _ _ _) as [rc [t|]]; simpl; [done|].
  by destruct (String.eqb _ _).
Qed.

(** ** What the rejection handler does to the breaker *)

Lemma recordFailure_breakerAt s config st rq now :
  nonEmpty (url config) = true ->
  breakerAt (circuitBreakers (recordFailure s (errorOf config st rq) now)) (url config) =
  let b := breakerAt (circuitBreakers s) (url config) in
  if countsAsFailure (errorOf config st rq)
  then mkBreaker (if CIRCUIT_BREAKER_THRESHOLD <=? failureCount b + 1 then OPEN else state b)
                 (failureCount b + 1) (Some now) (lastSuccessTime b)
  else b.
Proof.
  intros Hne. unfold recordFailure, countsAsFailure. simpl. rewrite Hne.
  pose proof (breakerAt_get (circuitBreakers s) (url config)) as G.
  unfold breakerAt at 2 3 4 5 6. unfold breakerAt at 2 in G.
  destruct (getCircuitBreaker (circuitBreakers s) (url config)) as [cbs b]; simpl in *.
  destruct (_ || _); simpl; [|done].
  unfold breakerAt, getCircuitBreaker. by rewrite lookup_insert_eq.
Qed.

Lemma recordFailure_skip s error now :
  countsAsFailure error = false ->
  forall k, breakerAt (circuitBreakers (recordFailure s error now)) k =
            breakerAt (circuitBreakers s) k.
Proof.
  intros Hc k. unfold recordFailure.
  destruct (err_config error) as [config|]; [|done].
  destruct (nonEmpty _); [|done].
  pose proof (breakerAt_fresh_elsewhere (circuitBreakers s) (url config) k) as G.
  destruct (getCircuitBreaker _ _) as [cbs b]; simpl in *.
  unfold countsAsFailure in Hc. by rewrite Hc.
Qed.

Lemma reject_breakerAt s endpoint m error k :
  breakerAt (circuitBreakers (fst (reject s endpoint m error))) k =
  breakerAt (circuitBreakers s) k.
Proof.
  unfold reject. destruct endpoint as [ep|]; [|done].
  destruct (nonEmpty ep); [|done].
  pose proof (breakerAt_fresh_elsewhere (circuitBreakers s) ep k) as G.
  by destruct (getCircuitBreaker _ _) as [cbs b].
Qed.

Lemma settle_breakerAt s endpoint m error now k :
  breakerAt (circuitBreakers (fst (settle s endpoint m error now))) k =
  breakerAt (circuitBreakers s) k.
Proof.
  unfold settle. destruct endpoint as [ep|]; [|apply reject_breakerAt].
  destruct (_ && _); [|apply reject_breakerAt].
  destruct (getCachedResponse _ _ _); [done|].
  destruct (is_GET m); [done|apply reject_breakerAt].
Qed.

Lemma reject_outcome s endpoint m error :
  exists e, snd (reject s endpoint m error) = Rejected e /\ ee_status e = err_status error.
Proof.
  unfold reject.
  destruct endpoint as [ep|]; [destruct (nonEmpty ep);
    [destruct (getCircuitBreaker _ _)|]|]; simpl; eauto.
Qed.

Lemma nonEmpty_true s : s <> "" -> nonEmpty s = true.
Proof.
  intros H. unfold nonEmpty. destruct (String.eqb_spec s ""); [done|done].
Qed.

Lemma status5xx_atLeast500 st : status5xx st = true -> statusAtLeast500 st = true.
Proof.
  destruct st as [n|]; simpl; [|done]. by intros [? _]%andb_prop.
Qed.

(** ** What the gates let through *)

Lemma breakerGate_pass_iff cbs cache config now :
  snd (breakerGate cbs cache config now) = None <->
  state (breakerAt cbs (url config)) <> OPEN \/
  shouldAttemptReset (breakerAt cbs (url config)) now = true.
Proof.
  unfold breakerGate, breakerAt.
  destruct (getCircuitBreaker cbs (url config)) as [cbs' b]; simpl.
  destruct (state b) eqn:E; simpl.
  - split; [by left|done].
  - unfold shouldAttemptReset at 1. rewrite E.
    destruct (shouldAttemptReset b now) eqn:R; unfold shouldAttemptReset in R; rewrite E in R;
      rewrite R; simpl.
    + split; [by right|done].
    + destruct (getCachedResponse _ _ _); simpl; (split; [done|by intros [?|?]]).
  - split; [by left|done].
Qed.

Lemma throttleGate_pass_iff rc cache config now :
  snd (throttleGate rc cache config now) = None <->
  match rc !! url config with
  | Some w => now - time w < THROTTLE_WINDOW -> count w < MAX_CALLS_PER_WINDOW
  | None => True
  end.
Proof.
  unfold throttleGate. destruct (rc !! url config) as [w|]; [|done].
  destruct (Z.ltb_spec (now - time w) THROTTLE_WINDOW); simpl; [|split; [lia|done]].
  destruct (Z.ltb_spec MAX_CALLS_PER_WINDOW (count w + 1)); simpl; [|split; [lia|done]].
  destruct (getCachedResponse _ _ _); simpl; [split; [done|lia]|].
  destruct (truthy _); simpl; (split; [done|lia]).
Qed.

(** While the breaker is OPEN and the cooldown has not elapsed, a request
    of any method is resolved with a substitute, without a live call. *)
Lemma open_breaker_resolves s config r b :
  circuitBreakers s !! url config = Some b ->
  state b = OPEN ->
  shouldAttemptReset b (t_request r) = false ->
  dispatch s config r =
  (s,
   Resolved match getCachedResponse (responseCache s)
                    (cacheKeyOf (method config) (url config)) (t_request r) with
            | Some cachedResponse =>
                mkResponse cachedResponse (Some 200) (Some "OK (Cached)")
            | None => getFallbackResponse (url config) (method config) (t_request r)
            end,
   O).
Proof.
  intros Hb Hs Hr. unfold dispatch, requestInterceptor.
  rewrite (breakerGate_open_wait _ _ config _ b Hb Hs Hr).
  unfold onRejected. by destruct s.
Qed.

(** ** The cache holds GET responses only *)

Lemma recordFailure_cache s error now :
  responseCache (recordFailure s error now) = responseCache s.
Proof.
  unfold recordFailure. destruct (err_config error) as [config|]; [|done].
  destruct (nonEmpty _); [|done].
  destruct (getCircuitBreaker _ _) as [cbs b]. by destruct (_ || _).
Qed.

Lemma reject_cache s endpoint m error :
  responseCache (fst (reject s endpoint m error)) = responseCache s.
Proof.
  unfold reject. destruct endpoint as [ep|]; [|done].
  destruct (nonEmpty ep); [|done]. by destruct (getCircuitBreaker _ _).
Qed.

Lemma settle_cache s endpoint m error now :
  responseCache (fst (settle s endpoint m error now)) = responseCache s.
Proof.
  unfold settle. destruct endpoint as [ep|]; [|apply reject_cache].
  destruct (_ && _); [|apply reject_cache].
  destruct (getCachedResponse _ _ _); [done|].
  destruct (is_GET m); [done|apply reject_cache].
Qed.

Lemma reachable_cacheOk s : reachable s -> cacheOk (responseCache s).
Proof.
  induction 1 as [|s config now _ IH|s config st body now _ IH|s error now _ IH
                  |s endpoint m error now _ IH].
  - intros k entry. unfold emptyStore. simpl. by rewrite lookup_empty.
  - destruct (requestInterceptor_stores s config now) as (_ & -> & _). exact IH.
  - unfold onFulfilled. destruct (getCircuitBreaker _ _) as [cbs b]. simpl.
    destruct (is_GET (method config)) eqn:G; simpl; [|exact IH].
    destruct (truthy body && (st =? 200)); [|exact IH].
    intros k entry. unfold cacheResponse. rewrite lookup_insert.
    case_decide as Hk; [|apply IH].
    intros _. exists (url config). rewrite <- Hk. by destruct (method config).
  - by rewrite recordFailure_cache.
  - by rewrite settle_cache.
Qed.

Lemma cacheOk_mutating_miss cache m endpoint now :
  cacheOk cache -> is_mutating m = true ->
  getCachedResponse cache (cacheKeyOf m endpoint) now = None.
Proof.
  intros Hok Hm. unfold getCachedResponse.
  destruct (cache !! cacheKeyOf m endpoint) as [entry|] eqn:E; [|done].
  destruct (Hok _ _ E) as [ep Hk]. by destruct m.
Qed.

(** A mutating request that went live and failed, retries included, is
    rejected with the status of the final error; neither the cache nor the
    fallback data is substituted. *)
Lemma mutating_live_failure_rejected s config r e :
  reachable s ->
  is_mutating (method config) = true ->
  snd (requestInterceptor s config (t_request r)) = Proceed config ->
  liveFailure config r = Some e ->
  exists err, snd (fst (dispatch s config r)) = Rejected err /\
              ee_status err = err_status e.
Proof.
  intros Hreach Hm Hp Hl.
  pose proof (reachable_cacheOk s Hreach) as Hc.
  destruct (requestInterceptor_stores s config (t_request r)) as (_ & Hcache & _).
  unfold dispatch.
  destruct (requestInterceptor s config (t_request r)) as [s1 i]; simpl in *.
  subst i. unfold liveFailure in Hl.
  destruct (first r) as [st body|st rq]; [done|].
  unfold onRejected.
  cbn [errorOf err_config err_status fmap option_fmap option_map from_option].
  assert (forall e' t,
            exists err,
              snd (settle (recordFailure s1 (errorOf config st rq) (t_response r))
                          (Some (url config)) (method config) e' t) = Rejected err /\
              ee_status err = err_status e') as Hset.
  { intros e' t. unfold settle.
    rewrite recordFailure_cache, Hcache, (cacheOk_mutating_miss _ _ _ _ Hc Hm).
    assert (is_GET (method config) = false) as -> by (by destruct (method config)).
    destruct (_ && _); apply reject_outcome. }
  destruct (status5xx st).
  - destruct (rr_result _) as [|e']; [done|]. injection Hl as ->.
    destruct (Hset e (t_settled r)) as (err & H1 & H2).
    destruct (settle _ _ _ _ _). simpl in *. eauto.
  - injection Hl as <-.
    destruct (Hset (errorOf config st rq) (t_response r)) as (err & H1 & H2).
    destruct (settle _ _ _ _ _). simpl in *. eauto.
Qed.

(** ** The model on small inputs *)

Example includes_settings_defaults : includes "/settings" "/settings/defaults" = true.
Proof. reflexivity. Qed.

Example fallback_unknown_path :
  getFallbackResponse "/categories" GET 7 =
  mkResponse (FallbackBody (mkCanned false false
                              "Service temporarily unavailable. Please try again later.")
                           "/categories" 7)
             (Some 503) (Some "Service Unavailable (Fallback)").
Proof. reflexivity. Qed.

(** A permanently failing endpoint: three calls inside [retryRequest],
    after sleeping 1 s and 2 s. *)
Example retryRequest_exhausted :
  retryRequest (mkConfig "/budgets" GET) (fun _ => fail503) 1 =
  mkRetryRun (RetryThrow (errorOf (mkConfig "/budgets" GET) (Some 503) true)) [1000; 2000].
Proof. reflexivity. Qed.

(** A 404 is not retried. *)
Example retryRequest_client_error :
  retryRequest (mkConfig "/budgets" GET) (fun _ => fail404) 1 =
  mkRetryRun (RetryThrow (errorOf (mkConfig "/budgets" GET) (Some 404) true)) [].
Proof. reflexivity. Qed.

(** Five failed calls open the breaker; a sixth GET within the cooldown is
    answered with the fallback data of its path, without a live call. *)
Example sixth_call_short_circuited :
  snd (dispatch (repeatDispatch 5 emptyStore (mkConfig "/budgets" GET) (runFail 0))
                (mkConfig "/budgets" GET) (runOk 500)) = O /\
  snd (fst (dispatch (repeatDispatch 5 emptyStore (mkConfig "/budgets" GET) (runFail 0))
                     (mkConfig "/budgets" GET) (runOk 500))) =
  Resolved (mkResponse (FallbackBody (mkCanned true true "Using cached budgets data")
                                     "/budgets" 500)
                       (Some 200) (Some "OK (Fallback)")).
Proof. vm_compute. done. Qed.

(** ** The claims *)

(** C1 (violated by the code). A mutating request must never be answered
    with a substituted success payload. The code does substitute when the
    breaker is OPEN: a POST /expenses issued 100 ms after the breaker of
    /expenses was tripped is resolved, without any live call, with the
    canned body of [fallbackData] (success: true, status 200,
    "OK (Fallback)"), although the rejection handler restricts the same
    fallback to GET. *)
Theorem C1_post_on_open_breaker_gets_fallback :
  circuitBreakers trippedStore !! "/expenses" = Some (mkBreaker OPEN 5 (Some 0) None) /\
  is_mutating POST = true /\
  dispatch trippedStore (mkConfig "/expenses" POST) (runFail 100) =
  (trippedStore,
   Resolved (mkResponse
               (FallbackBody (mkCanned true true "Using cached expenses data")
                             "/expenses" 100)
               (Some 200) (Some "OK (Fallback)")),
   O).
Proof. vm_compute. done. Qed.

(** C5. For every GET endpoint holding a cache entry younger than the
    5-minute TTL, a dispatch issued while the breaker of the endpoint is
    OPEN and not yet eligible for reset returns the cached payload tagged
    fromCache (with its age), not the fallback and not an error, makes no
    live call, and leaves the stores as they are. *)
Theorem C5_open_breaker_serves_cache s endpoint r b entry :
  circuitBreakers s !! endpoint = Some b ->
  state b = OPEN ->
  t_request r - timeOrNull (lastFailureTime b) <= CIRCUIT_BREAKER_TIMEOUT ->
  responseCache s !! cacheKeyOf GET endpoint = Some entry ->
  t_request r - ce_timestamp entry < CACHE_TTL ->
  dispatch s (mkConfig endpoint GET) r =
  (s,
   Resolved (mkResponse (CachedData (ce_data entry) (t_request r - ce_timestamp entry))
                        (Some 200) (Some "OK (Cached)")),
   O).
Proof.
  intros Hb Hs Ht Hc Hage.
  assert (shouldAttemptReset b (t_request r) = false) as Hr.
  { unfold shouldAttemptReset. rewrite Hs. apply Z.ltb_ge. lia. }
  unfold dispatch, requestInterceptor.
  rewrite (breakerGate_open_wait _ _ (mkConfig endpoint GET) _ b Hb Hs Hr).
  unfold getCachedResponse. simpl. rewrite Hc.
  destruct (Z.ltb_spec (t_request r - ce_timestamp entry) CACHE_TTL); [|lia].
  unfold onRejected. by destruct s.
Qed.

Lemma C5_open_breaker_serves_cache_witness :
  dispatch cachedThenTripped (mkConfig "/settings" GET) (runFail 100) =
  (cachedThenTripped,
   Resolved (mkResponse (CachedData (JObj "{...}") 100) (Some 200) (Some "OK (Cached)")),
   O).
Proof.
  apply (C5_open_breaker_serves_cache cachedThenTripped "/settings" (runFail 100)
           (mkBreaker OPEN 5 (Some 10) (Some 0)) (mkCacheEntry (JObj "{...}") 0)).
  - vm_compute. reflexivity.
  - reflexivity.
  - vm_compute. discriminate.
  - vm_compute. reflexivity.
  - vm_compute. reflexivity.
Defined.

(** C3, as stated, fails for a call whose url is the empty string (a request
    to the base url itself): a POST that is answered 503 at the first
    attempt and at the three retries makes four live calls and is rejected
    with status 503, and the failureCount of the breaker of its url is 0
    before and after, since the rejection handler records a failure only
    under [if (endpoint)] while the retry of line 335 is not so guarded. *)
Lemma C3_empty_url_failure_not_counted :
  let config := mkConfig "" POST in
  let result := dispatch emptyStore config (runFail 0) in
  snd (requestInterceptor emptyStore config (t_request (runFail 0))) = Proceed config /\
  liveFailure config (runFail 0) = Some (errorOf config (Some 503) true) /\
  countsAsFailure (errorOf config (Some 503) true) = true /\
  snd result = 4%nat /\
  (exists e, snd (fst result) = Rejected e /\ ee_status e = Some 503) /\
  failureCount (breakerAt (circuitBreakers emptyStore) "") = 0 /\
  failureCount (breakerAt (circuitBreakers (fst (fst result))) "") = 0.
Proof.
  vm_compute. repeat split; try reflexivity. eexists. split; reflexivity.
Qed.

(** C3, amended. For every logical call that went live, to a url that is
    not empty and is not the name of a property every object inherits, and
    that ends, retries included, in an error the breaker counts (a status of
    500 or more, or no response although the request was sent), the
    failureCount of the breaker of its endpoint grows by exactly 1,
    whatever the number of attempts: the retries go through bare axios and
    never re-enter the rejection handler. *)
Theorem C3_one_failure_per_logical_call s config r e :
  url config <> "" ->
  inheritedName (url config) = false ->
  snd (requestInterceptor s config (t_request r)) = Proceed config ->
  liveFailure config r = Some e ->
  countsAsFailure e = true ->
  failureCount (breakerAt (circuitBreakers (fst (fst (dispatch s config r)))) (url config)) =
  failureCount (breakerAt (circuitBreakers s) (url config)) + 1.
Proof.
  intros Hne%nonEmpty_true _ Hp Hl Hc.
  destruct (requestInterceptor_proceed_inv _ _ _ _ Hp) as (Hg & _ & Hs1).
  destruct (breakerGate_pass _ _ _ _ Hg) as (b & Hb & _ & Hfc & _).
  unfold dispatch.
  destruct (requestInterceptor s config (t_request r)) as [s1 i]; simpl in *.
  subst i s1. unfold liveFailure in Hl.
  destruct (first r) as [st body|st rq]; [done|].
  unfold onRejected.
  cbn [errorOf err_config err_status fmap option_fmap option_map from_option].
  set (s1 := mkStore _ _ _) in *.
  assert (countsAsFailure (errorOf config st rq) = true) as Hc0.
  { destruct (status5xx st) eqn:E5.
    - unfold countsAsFailure. simpl. by rewrite (status5xx_atLeast500 _ E5).
    - by injection Hl as <-. }
  pose proof (recordFailure_breakerAt s1 config st rq (t_response r) Hne) as Hrec.
  assert (breakerAt (circuitBreakers s1) (url config) = b) as Hb1.
  { unfold breakerAt, getCircuitBreaker, s1. simpl. by rewrite Hb. }
  rewrite Hc0, Hb1 in Hrec. cbv zeta in Hrec.
  assert (forall e' t,
            failureCount
              (breakerAt (circuitBreakers
                            (fst (settle (recordFailure s1 (errorOf config st rq) (t_response r))
                                         (Some (url config)) (method config) e' t)))
                         (url config)) =
            failureCount (breakerAt (circuitBreakers s) (url config)) + 1) as Hset.
  { intros e' t. rewrite settle_breakerAt, Hrec. simpl. lia. }
  destruct (status5xx st).
  - destruct (rr_result _) as [|e']; [done|].
    specialize (Hset e' (t_settled r)). by destruct (settle _ _ _ _ _).
  - specialize (Hset (errorOf config st rq) (t_response r)). by destruct (settle _ _ _ _ _).
Qed.

Lemma C3_one_failure_per_logical_call_witness :
  failureCount
    (breakerAt (circuitBreakers
                  (fst (fst (dispatch emptyStore (mkConfig "/expenses" POST) (runFail 0)))))
               "/expenses") =
  failureCount (breakerAt (circuitBreakers emptyStore) "/expenses") + 1 /\
  snd (dispatch emptyStore (mkConfig "/expenses" POST) (runFail 0)) = 4%nat.
Proof.
  split.
  - apply (C3_one_failure_per_logical_call emptyStore (mkConfig "/expenses" POST) (runFail 0)
             (errorOf (mkConfig "/expenses" POST) (Some 503) true)).
    + discriminate.
    + reflexivity.
    + vm_compute. reflexivity.
    + vm_compute. reflexivity.
    + reflexivity.
  - vm_compute. reflexivity.
Defined.

(** C8. For every error response whose status is in the 4xx range (401 and
    403 included), the rejection handler leaves every breaker as it was (no
    failureCount increment, no lastFailureTime stamp, no state change),
    makes no retry attempt, and rejects with that status. *)
Theorem C8_client_error_leaves_breaker s config n rq now net later :
  400 <= n < 500 ->
  let result := onRejected s (Err (errorOf config (Some n) rq)) now net later in
  (forall k, breakerAt (circuitBreakers (fst (fst result))) k =
             breakerAt (circuitBreakers s) k) /\
  snd result = O /\
  exists e, snd (fst result) = Rejected e /\ ee_status e = Some n.
Proof.
  intros Hn. unfold onRejected.
  cbn [errorOf err_config err_status fmap option_fmap option_map from_option].
  assert (status5xx (Some n) = false) as ->.
  { simpl. apply andb_false_iff. left. apply Z.leb_gt. lia. }
  assert (countsAsFailure (errorOf config (Some n) rq) = false) as Hc.
  { unfold countsAsFailure. simpl. rewrite orb_false_r. apply Z.leb_gt. lia. }
  cbn zeta. split; [|split; [done|]].
  - intros k. simpl. rewrite settle_breakerAt. by apply recordFailure_skip.
  - simpl. unfold settle. simpl.
    assert ((500 <=? n) = false) as -> by (apply Z.leb_gt; lia).
    rewrite orb_false_r, andb_false_r.
    apply (reject_outcome _ _ _ (errorOf config (Some n) rq)).
Qed.

Lemma C8_client_error_leaves_breaker_witness :
  breakerAt (circuitBreakers
               (fst (fst (onRejected trippedStore
                            (Err (errorOf (mkConfig "/expenses" POST) (Some 403) true))
                            7 (fun _ => fail503) 7))))
            "/expenses" =
    mkBreaker OPEN 5 (Some 0) None /\
  snd (onRejected trippedStore (Err (errorOf (mkConfig "/expenses" POST) (Some 403) true))
                  7 (fun _ => fail503) 7) = O.
Proof.
  destruct (C8_client_error_leaves_breaker trippedStore (mkConfig "/expenses" POST) 403 true
              7 (fun _ => fail503) 7) as (H1 & H2 & _).
  - lia.
  - split; [|exact H2]. rewrite (H1 "/expenses"). vm_compute. reflexivity.
Defined.

(** ** Reachability of the scenarios *)

Lemma onRejected_reachable s t now net later :
  reachable s -> reachable (fst (fst (onRejected s t now net later))).
Proof.
  intros H. unfold onRejected. destruct t as [r|error]; [done|].
  pose proof (reach_record s error now H) as H1.
  destruct (err_config error) as [config|]; simpl.
  - destruct (status5xx _).
    + destruct (rr_result _); simpl; [done|]. by apply reach_settle.
    + simpl. by apply reach_settle.
  - first [exact H1 | by apply reach_settle].
Qed.

Lemma dispatch_reachable s config r :
  reachable s -> reachable (fst (fst (dispatch s config r))).
Proof.
  intros H. unfold dispatch.
  pose proof (reach_request s config (t_request r) H) as H1.
  destruct (requestInterceptor _ _ _) as [s1 [c|t]]; simpl in *.
  - destruct (first r) as [st body|st rq].
    + pose proof (reach_fulfilled s1 c st body (t_response r) H1) as H2.
      by destruct (onFulfilled _ _ _ _ _).
    + pose proof (onRejected_reachable s1 (Err (errorOf c st rq)) (t_response r)
                    (retries r) (t_settled r) H1) as H2.
      by destruct (onRejected _ _ _ _ _) as [[s2 o] n].
  - by apply onRejected_reachable.
Qed.

Lemma repeatDispatch_reachable n s config r :
  reachable s -> reachable (repeatDispatch n s config r).
Proof.
  revert s. induction n as [|n IH]; intros s H; simpl; [done|].
  apply IH. by apply dispatch_reachable.
Qed.

Lemma trippedStore_reachable : reachable trippedStore.
Proof. apply repeatDispatch_reachable, reach_init. Qed.

(** ** The half-open state *)

(** C2, as stated, fails: once the cooldown has elapsed a first request is
    let through and leaves the breaker HALF_OPEN; a second request to the
    same endpoint, made before the first has any outcome, is let through to
    the network as well. *)
Lemma C2_second_request_admitted_during_probe :
  shouldAttemptReset (breakerAt (circuitBreakers trippedStore) "/expenses") 40000 = true /\
  snd (requestInterceptor trippedStore (mkConfig "/expenses" GET) 40000) =
    Proceed (mkConfig "/expenses" GET) /\
  state (breakerAt (circuitBreakers probingStore) "/expenses") = HALF_OPEN /\
  snd (requestInterceptor probingStore (mkConfig "/expenses" GET) 40001) =
    Proceed (mkConfig "/expenses" GET).
Proof. vm_compute. done. Qed.

(** C2, amended. For every endpoint whose breaker is OPEN, once
    now - lastFailureTime > cooldown the next request passes the breaker
    check and leaves the breaker HALF_OPEN. From there a failure the
    breaker counts returns it to OPEN with lastFailureTime restamped (any
    other error leaves it HALF_OPEN), and a success returns it to CLOSED
    with failureCount 0. While it is HALF_OPEN every further request to
    the endpoint passes the breaker check too: there is no limit of one
    probe. *)
Theorem C2_half_open_transitions s config now b :
  reachable s ->
  url config <> "" ->
  circuitBreakers s !! url config = Some b ->
  state b = OPEN ->
  CIRCUIT_BREAKER_TIMEOUT < now - timeOrNull (lastFailureTime b) ->
  let s1 := fst (requestInterceptor s config now) in
  snd (breakerGate (circuitBreakers s) (responseCache s) config now) = None /\
  circuitBreakers s1 !! url config = Some (setState b HALF_OPEN) /\
  (forall st rq t,
      circuitBreakers (recordFailure s1 (errorOf config st rq) t) !! url config =
      Some (if countsAsFailure (errorOf config st rq)
            then mkBreaker OPEN (failureCount b + 1) (Some t) (lastSuccessTime b)
            else setState b HALF_OPEN)) /\
  (forall st body t,
      circuitBreakers (fst (onFulfilled s1 config st body t)) !! url config =
      Some (mkBreaker CLOSED 0 (lastFailureTime b) (Some t))) /\
  (forall m now',
      snd (breakerGate (circuitBreakers s1) (responseCache s1)
                       (mkConfig (url config) m) now') = None).
Proof.
  intros Hreach Hne%nonEmpty_true Hb Hs Ht s1.
  assert (shouldAttemptReset b now = true) as Hr.
  { unfold shouldAttemptReset. rewrite Hs. apply Z.ltb_lt. lia. }
  pose proof (breakerGate_open_probe _ (responseCache s) config now b Hb Hs Hr) as Hg.
  destruct (requestInterceptor_stores s config now) as (A & _ & _).
  fold s1 in A. rewrite Hg in A. simpl in A.
  assert (circuitBreakers s1 !! url config = Some (setState b HALF_OPEN)) as Hb1.
  { rewrite A. apply lookup_insert_eq. }
  assert (CIRCUIT_BREAKER_THRESHOLD <= failureCount b) as Hfc.
  { pose proof (reachable_storeOk s Hreach _ _ Hb) as Hok.
    unfold breakerOk in Hok. rewrite Hs in Hok. tauto. }
  split; [by rewrite Hg|]. split; [done|]. split; [|split].
  - intros st rq t. unfold recordFailure, countsAsFailure. simpl. rewrite Hne.
    rewrite (getCircuitBreaker_present _ _ _ Hb1).
    destruct (_ || _); simpl; [|done].
    rewrite lookup_insert_eq.
    destruct (Z.leb_spec CIRCUIT_BREAKER_THRESHOLD (failureCount b + 1)); [done|lia].
  - intros st body t. unfold onFulfilled.
    rewrite (getCircuitBreaker_present _ _ _ Hb1). simpl.
    by rewrite lookup_insert_eq.
  - intros m now'.
    by rewrite (breakerGate_not_open _ _ (mkConfig (url config) m) now' _ Hb1).
Qed.

Lemma C2_half_open_transitions_witness :
  circuitBreakers probingStore !! "/expenses" = Some (mkBreaker HALF_OPEN 5 (Some 0) None) /\
  circuitBreakers (recordFailure probingStore
                     (errorOf (mkConfig "/expenses" GET) (Some 503) true) 40100)
    !! "/expenses" = Some (mkBreaker OPEN 6 (Some 40100) None).
Proof.
  destruct (C2_half_open_transitions trippedStore (mkConfig "/expenses" GET) 40000
              (mkBreaker OPEN 5 (Some 0) None)) as (_ & H1 & H2 & _).
  - exact trippedStore_reachable.
  - discriminate.
  - vm_compute. reflexivity.
  - reflexivity.
  - vm_compute. reflexivity.
  - split; [exact H1|]. exact (H2 (Some 503) true 40100).
Defined.

(** ** Success *)

(** C4, as stated, fails in two ways. On the retry path: a GET /expenses
    whose first attempt fails with 503 and whose first retry succeeds
    returns the live response after two live calls, but the breaker keeps
    the failure it recorded (failureCount 1, no lastSuccessTime) and
    nothing is cached, since the retry goes through bare axios, past the
    success handler. In the success handler: a GET /expenses answered at
    once with 204 and an empty body is recorded by the breaker but not
    cached. *)
Lemma C4_success_not_always_recorded :
  (snd (fst (dispatch emptyStore (mkConfig "/expenses" GET) (runRecover 0))) =
     Resolved (liveResponse 200 (JObj "{...}")) /\
   snd (dispatch emptyStore (mkConfig "/expenses" GET) (runRecover 0)) = 2%nat /\
   circuitBreakers (fst (fst (dispatch emptyStore (mkConfig "/expenses" GET) (runRecover 0))))
     !! "/expenses" = Some (mkBreaker CLOSED 1 (Some 0) None) /\
   responseCache (fst (fst (dispatch emptyStore (mkConfig "/expenses" GET) (runRecover 0))))
     !! cacheKeyOf GET "/expenses" = None) /\
  (snd (fst (dispatch emptyStore (mkConfig "/expenses" GET) runNoContent)) =
     Resolved (liveResponse 204 (JStr "")) /\
   responseCache (fst (fst (dispatch emptyStore (mkConfig "/expenses" GET) runNoContent)))
     !! cacheKeyOf GET "/expenses" = None).
Proof. vm_compute. done. Qed.

(** C4, amended. For every live response that reaches the success handler
    (the first attempt succeeded), for a url that is not the name of a
    property every object inherits: the handler returns the live response;
    the breaker of the endpoint, as the handler finds it when the response
    arrives, becomes CLOSED with failureCount 0 and lastSuccessTime stamped
    if it is CLOSED or HALF_OPEN, and is left as it is if it is OPEN; the
    payload is stored in the cache under method:path exactly when the
    method is GET, the payload is truthy and the status is 200, otherwise
    the cache is left as the handler found it. The breaker is not OPEN when
    the request interceptor has let the call through, so the handler finds
    it OPEN only when failures of other calls to the url were recorded
    while this one was in flight; when no other handler runs in between,
    the dispatch is the success handler run on the store the request
    interceptor left, after one live call. *)
Theorem C4_first_attempt_success_recorded s config st body now :
  inheritedName (url config) = false ->
  snd (onFulfilled s config st body now) = liveResponse st body /\
  circuitBreakers (fst (onFulfilled s config st body now)) !! url config =
    Some (match state (breakerAt (circuitBreakers s) (url config)) with
          | OPEN => breakerAt (circuitBreakers s) (url config)
          | _ => mkBreaker CLOSED 0
                           (lastFailureTime (breakerAt (circuitBreakers s) (url config)))
                           (Some now)
          end) /\
  responseCache (fst (onFulfilled s config st body now)) =
    (if is_GET (method config) && truthy body && (st =? 200)
     then <[cacheKeyOf (method config) (url config) := mkCacheEntry body now]>
            (responseCache s)
     else responseCache s) /\
  (forall s0 r,
     snd (requestInterceptor s0 config (t_request r)) = Proceed config ->
     first r = NetOk st body ->
     state (breakerAt (circuitBreakers (fst (requestInterceptor s0 config (t_request r))))
                      (url config)) <> OPEN /\
     dispatch s0 config r =
       (fst (onFulfilled (fst (requestInterceptor s0 config (t_request r)))
                         config st body (t_response r)),
        Resolved (liveResponse st body), 1%nat)).
Proof.
  intros _. split; [|split; [|split]].
  - unfold onFulfilled.
    destruct (getCircuitBreaker (circuitBreakers s) (url config)) as [cbs b].
    reflexivity.
  - unfold onFulfilled, breakerAt.
    pose proof (getCircuitBreaker_lookup (circuitBreakers s) (url config)) as L.
    destruct (getCircuitBreaker (circuitBreakers s) (url config)) as [cbs b].
    simpl in *. destruct (state b); simpl; [| done |]; by rewrite lookup_insert_eq.
  - unfold onFulfilled.
    destruct (getCircuitBreaker (circuitBreakers s) (url config)) as [cbs b].
    reflexivity.
  - intros s0 r Hp Hf.
    destruct (requestInterceptor_proceed_inv _ _ _ _ Hp) as (Hg & _ & Hs1).
    destruct (breakerGate_pass _ _ _ _ Hg) as (b & Hb & Hopen & _).
    split.
    + rewrite Hs1. unfold breakerAt. simpl.
      by rewrite (getCircuitBreaker_present _ _ _ Hb).
    + unfold dispatch.
      destruct (requestInterceptor s0 config (t_request r)) as [s1 i]; simpl in *.
      subst i. rewrite Hf.
      assert (snd (onFulfilled s1 config st body (t_response r)) = liveResponse st body)
        as Hr.
      { unfold onFulfilled.
        by destruct (getCircuitBreaker (circuitBreakers s1) (url config)). }
      destruct (onFulfilled s1 config st body (t_response r)) as [s2 response].
      simpl in Hr. by subst response.
Qed.

Lemma C4_first_attempt_success_recorded_witness :
  circuitBreakers (fst (onFulfilled probingStore (mkConfig "/expenses" GET) 200
                                    (JObj "{...}") 40050))
    !! "/expenses" = Some (mkBreaker CLOSED 0 (Some 0) (Some 40050)) /\
  responseCache (fst (onFulfilled probingStore (mkConfig "/expenses" GET) 200
                                  (JObj "{...}") 40050))
    !! cacheKeyOf GET "/expenses" = Some (mkCacheEntry (JObj "{...}") 40050) /\
  dispatch trippedStore (mkConfig "/expenses" GET) (runOk 40000) =
    (fst (onFulfilled probingStore (mkConfig "/expenses" GET) 200 (JObj "{...}") 40000),
     Resolved (liveResponse 200 (JObj "{...}")), 1%nat).
Proof.
  destruct (C4_first_attempt_success_recorded probingStore (mkConfig "/expenses" GET)
              200 (JObj "{...}") 40050) as (_ & H1 & H2 & H3).
  - reflexivity.
  - split; [exact H1|]. split; [rewrite H2; vm_compute; reflexivity|].
    destruct (H3 trippedStore (runOk 40000)) as [_ H4].
    + vm_compute. reflexivity.
    + reflexivity.
    + exact H4.
Defined.

(** ** The throttle *)

(** C6, as stated, fails: with nothing cached and no last response
    recorded, the eleventh call of the window is not resolved from fallback
    data; it makes no live call and is rejected with the cancellation the
    throttle throws. *)
Lemma C6_eleventh_call_rejected :
  recentCalls floodedStore !! "/expenses" = Some (mkWindow 0 10 JNull) /\
  snd (fst (dispatch floodedStore (mkConfig "/expenses" GET) (runOk 0))) =
    Rejected (throttleRejection "/expenses") /\
  snd (dispatch floodedStore (mkConfig "/expenses" GET) (runOk 0)) = O.
Proof. vm_compute. done. Qed.

(** C6, amended. For every endpoint, each request that passes the breaker
    check as the eleventh or later of a 1-second throttle window is not
    sent to the network; it is resolved from the cache if a valid entry
    exists under its method:path, otherwise from the last response recorded
    for the window if there is a truthy one, and otherwise it is rejected
    with the cancellation error of the throttle. *)
Theorem C6_throttled_resolution s config r w :
  snd (breakerGate (circuitBreakers s) (responseCache s) config (t_request r)) = None ->
  recentCalls s !! url config = Some w ->
  t_request r - time w < THROTTLE_WINDOW ->
  MAX_CALLS_PER_WINDOW <= count w ->
  snd (dispatch s config r) = O /\
  snd (fst (dispatch s config r)) =
    match getCachedResponse (responseCache s) (cacheKeyOf (method config) (url config))
                            (t_request r) with
    | Some cachedResponse =>
        Resolved (mkResponse cachedResponse (Some 200) (Some "OK (Cached)"))
    | None =>
        if truthy (lastResponse w)
        then Resolved (mkResponse (ServerData (lastResponse w)) (Some 200)
                                  (Some "OK (Throttled Cache)"))
        else Rejected (throttleRejection (url config))
    end.
Proof.
  intros Hg Hw Ht Hc. unfold dispatch, requestInterceptor.
  destruct (breakerGate _ _ _ _) as [cbs o]; simpl in Hg; subst o.
  unfold throttleGate. rewrite Hw.
  destruct (Z.ltb_spec (t_request r - time w) THROTTLE_WINDOW); [|lia].
  cbn [count lastResponse].
  destruct (Z.ltb_spec MAX_CALLS_PER_WINDOW (count w + 1)); [|lia].
  destruct (getCachedResponse _ _ _); [done|].
  by destruct (truthy _).
Qed.

Lemma C6_throttled_resolution_witness :
  snd (dispatch floodedStore (mkConfig "/expenses" POST) (runOk 999)) = O /\
  snd (fst (dispatch floodedStore (mkConfig "/expenses" POST) (runOk 999))) =
    Rejected (throttleRejection "/expenses").
Proof.
  apply (C6_throttled_resolution floodedStore (mkConfig "/expenses" POST) (runOk 999)
           (mkWindow 0 10 JNull)).
  - vm_compute. reflexivity.
  - vm_compute. reflexivity.
  - vm_compute. reflexivity.
  - vm_compute. discriminate.
Defined.

(** ** The keys of the stores *)

Lemma cacheKeyOf_method m1 m2 endpoint :
  cacheKeyOf m1 endpoint = cacheKeyOf m2 endpoint <-> m1 = m2.
Proof.
  split; [|by intros ->].
  unfold cacheKeyOf. destruct m1, m2; simpl; try done; intros [=].
Qed.

Lemma breakerGate_method cbs cache1 cache2 endpoint m1 m2 now :
  fst (breakerGate cbs cache1 (mkConfig endpoint m1) now) =
  fst (breakerGate cbs cache2 (mkConfig endpoint m2) now) /\
  (snd (breakerGate cbs cache1 (mkConfig endpoint m1) now) = None <->
   snd (breakerGate cbs cache2 (mkConfig endpoint m2) now) = None).
Proof.
  unfold breakerGate. simpl. destruct (getCircuitBreaker cbs endpoint) as [cbs' b].
  destruct (state b); simpl; try done.
  destruct (shouldAttemptReset b now); simpl; [done|].
  by destruct (getCachedResponse cache1 _ _), (getCachedResponse cache2 _ _).
Qed.

Lemma throttleGate_method rc cache1 cache2 endpoint m1 m2 now :
  fst (throttleGate rc cache1 (mkConfig endpoint m1) now) =
  fst (throttleGate rc cache2 (mkConfig endpoint m2) now).
Proof.
  unfold throttleGate. simpl. destruct (rc !! endpoint) as [w|]; [|done].
  destruct (_ <? THROTTLE_WINDOW); [|done].
  destruct (MAX_CALLS_PER_WINDOW <? _); [|done].
  destruct (getCachedResponse cache1 _ _), (getCachedResponse cache2 _ _);
    simpl; try done; by destruct (truthy _).
Qed.

Lemma breakerGate_dom cbs cache config now :
  dom (fst (breakerGate cbs cache config now)) = {[url config]} ∪ dom cbs.
Proof.
  unfold breakerGate, getCircuitBreaker.
  destruct (cbs !! url config) as [b|] eqn:E.
  - assert ({[url config]} ∪ dom cbs = dom cbs) as Hd.
    { apply subseteq_union_1_L, singleton_subseteq_l, elem_of_dom. eauto. }
    destruct (state b); simpl; try done.
    destruct (shouldAttemptReset b now); simpl.
    + by rewrite dom_insert_L, Hd.
    + by destruct (getCachedResponse _ _ _).
  - simpl. by rewrite dom_insert_L.
Qed.

(** C7, as stated, fails: the breaker and the window are looked up by the
    path alone. After five failed POST /expenses calls there is one breaker
    and one window; a GET /expenses, which never failed, finds that breaker
    OPEN and is cut off with fallback data, without a live call. *)
Lemma C7_breaker_shared_across_methods :
  size (circuitBreakers trippedStore) = 1%nat /\
  size (recentCalls trippedStore) = 1%nat /\
  breakerAt (circuitBreakers trippedStore) (url (mkConfig "/expenses" GET)) =
    mkBreaker OPEN 5 (Some 0) None /\
  dispatch trippedStore (mkConfig "/expenses" GET) (runOk 100) =
    (trippedStore,
     Resolved (mkResponse
                 (FallbackBody (mkCanned true true "Using cached expenses data")
                               "/expenses" 100)
                 (Some 200) (Some "OK (Fallback)")),
     O).
Proof. vm_compute. done. Qed.

(** C7, amended. The breaker and the throttle window of a request are
    identified by its path alone: what the handlers do to [circuitBreakers]
    and [recentCalls] is the same for two requests to the same path with
    different methods; for a path that is not the name of a property every
    object inherits, the breakers after the request interceptor are those
    there were before together with the one of the path, created on first
    use. Only the cache key distinguishes methods. *)
Theorem C7_state_keyed_by_path s endpoint m1 m2 now st body :
  circuitBreakers (fst (requestInterceptor s (mkConfig endpoint m1) now)) =
    circuitBreakers (fst (requestInterceptor s (mkConfig endpoint m2) now)) /\
  recentCalls (fst (requestInterceptor s (mkConfig endpoint m1) now)) =
    recentCalls (fst (requestInterceptor s (mkConfig endpoint m2) now)) /\
  (inheritedName endpoint = false ->
   dom (circuitBreakers (fst (requestInterceptor s (mkConfig endpoint m1) now))) =
     {[endpoint]} ∪ dom (circuitBreakers s)) /\
  circuitBreakers (fst (onFulfilled s (mkConfig endpoint m1) st body now)) =
    circuitBreakers (fst (onFulfilled s (mkConfig endpoint m2) st body now)) /\
  recentCalls (fst (onFulfilled s (mkConfig endpoint m1) st body now)) =
    recentCalls (fst (onFulfilled s (mkConfig endpoint m2) st body now)) /\
  (forall est rq,
      circuitBreakers (recordFailure s (errorOf (mkConfig endpoint m1) est rq) now) =
      circuitBreakers (recordFailure s (errorOf (mkConfig endpoint m2) est rq) now)) /\
  (cacheKeyOf m1 endpoint = cacheKeyOf m2 endpoint <-> m1 = m2).
Proof.
  pose proof (breakerGate_method (circuitBreakers s) (responseCache s) (responseCache s)
                endpoint m1 m2 now) as [G1 G2].
  pose proof (throttleGate_method (recentCalls s) (responseCache s) (responseCache s)
                endpoint m1 m2 now) as T.
  pose proof (breakerGate_dom (circuitBreakers s) (responseCache s)
                (mkConfig endpoint m1) now) as D.
  split; [|split; [|split; [|split; [|split; [|split]]]]].
  - destruct (requestInterceptor_stores s (mkConfig endpoint m1) now) as (-> & _ & _).
    by destruct (requestInterceptor_stores s (mkConfig endpoint m2) now) as (-> & _ & _).
  - unfold requestInterceptor.
    destruct (breakerGate _ _ (mkConfig endpoint m1) _) as [c1 [t1|]],
             (breakerGate _ _ (mkConfig endpoint m2) _) as [c2 [t2|]]; simpl in *;
      try done; try (by destruct G2 as [G2 G2']; first [specialize (G2 eq_refl)
                                                       |specialize (G2' eq_refl)]).
    destruct (throttleGate _ _ (mkConfig endpoint m1) _) as [r1 [u1|]],
             (throttleGate _ _ (mkConfig endpoint m2) _) as [r2 [u2|]]; simpl in *;
      subst; try done; by destruct (String.eqb _ _).
  - intros _.
    by destruct (requestInterceptor_stores s (mkConfig endpoint m1) now) as (-> & _ & _).
  - unfold onFulfilled. simpl.
    by destruct (getCircuitBreaker _ _) as [cbs b].
  - unfold onFulfilled. simpl.
    by destruct (getCircuitBreaker _ _) as [cbs b].
  - intros est rq. unfold recordFailure. simpl.
    destruct (nonEmpty endpoint); [|done].
    destruct (getCircuitBreaker _ _) as [cbs b].
    by destruct (_ || _).
  - apply cacheKeyOf_method.
Qed.

(** ** Which stores a call writes *)

(** C9, as stated, fails: a GET /expenses that succeeds at time 5 on
    [warmStore] writes all three stores: the window count (1 to 2), the
    breaker (lastSuccessTime 0 to 5) and the cache entry (timestamp 0 to
    5). *)
Lemma C9_live_success_writes_three_stores :
  circuitBreakers (fst (fst (dispatch warmStore (mkConfig "/expenses" GET) (runOk 5))))
    <> circuitBreakers warmStore /\
  recentCalls (fst (fst (dispatch warmStore (mkConfig "/expenses" GET) (runOk 5))))
    <> recentCalls warmStore /\
  responseCache (fst (fst (dispatch warmStore (mkConfig "/expenses" GET) (runOk 5))))
    <> responseCache warmStore.
Proof.
  repeat split; intros H.
  - apply (f_equal (fun m => m !! "/expenses")) in H. vm_compute in H. discriminate.
  - apply (f_equal (fun m => m !! "/expenses")) in H. vm_compute in H. discriminate.
  - apply (f_equal (fun m => m !! "GET:/expenses")) in H. vm_compute in H. discriminate.
Qed.

(** C9, amended. A dispatch may write all three stores, but in each it
    writes at most the entry of its own request: the breaker and the window
    of its path and the cache entry of its method and path. Every other
    entry of every store is left as it was, on every path through the
    dispatcher. *)
Theorem C9_dispatch_touches_own_entries s config r :
  touchesOnly config s (fst (fst (dispatch s config r))).
Proof. apply dispatch_frame. Qed.

(** ** The deprecated endpoint *)

(** C10, as stated, fails: the deprecated endpoint is handled after the
    throttle, so the eleventh call to /settings/defaults within a second is
    rejected with the cancellation instead of getting the fixed payload. *)
Lemma C10_eleventh_deprecated_call_rejected :
  snd (fst (dispatch emptyStore (mkConfig "/settings/defaults" GET) (runOk 0))) =
    Resolved deprecatedResponse /\
  recentCalls deprecatedFlood !! "/settings/defaults" = Some (mkWindow 0 10 JNull) /\
  snd (fst (dispatch deprecatedFlood (mkConfig "/settings/defaults" GET) (runOk 0))) =
    Rejected (throttleRejection "/settings/defaults").
Proof. vm_compute. done. Qed.

(** C10, amended. For every request whose path is exactly
    /settings/defaults and which passes the breaker check and the throttle,
    regardless of method and cache contents, dispatch returns the fixed
    payload (success: true, data: [], "Deprecated endpoint - use /settings
    instead") without making any live call. *)
Theorem C10_deprecated_endpoint_fixed_payload s m r :
  snd (breakerGate (circuitBreakers s) (responseCache s)
                   (mkConfig "/settings/defaults" m) (t_request r)) = None ->
  snd (throttleGate (recentCalls s) (responseCache s)
                    (mkConfig "/settings/defaults" m) (t_request r)) = None ->
  snd (fst (dispatch s (mkConfig "/settings/defaults" m) r)) = Resolved deprecatedResponse /\
  snd (dispatch s (mkConfig "/settings/defaults" m) r) = O.
Proof.
  intros Hg Ht. unfold dispatch, requestInterceptor.
  destruct (breakerGate _ _ _ _) as [cbs o]; simpl in Hg; subst o.
  destruct (throttleGate _ _ _ _) as [rc o]; simpl in Ht; subst o.
  done.
Qed.

Lemma C10_deprecated_endpoint_fixed_payload_witness :
  snd (fst (dispatch warmStore (mkConfig "/settings/defaults" DELETE) (runFail 3))) =
    Resolved deprecatedResponse /\
  snd (dispatch warmStore (mkConfig "/settings/defaults" DELETE) (runFail 3)) = O.
Proof.
  apply (C10_deprecated_endpoint_fixed_payload warmStore DELETE (runFail 3)).
  - vm_compute. reflexivity.
  - vm_compute. reflexivity.
Defined.

(** * Further properties of the dispatcher *)

(** ** The response cache *)

(** X1. A payload written by [cacheResponse] at time [t0] is read back by
    [getCachedResponse], tagged with its age, at every time [t] with
    t - t0 < 5 minutes, and is invisible from then on; writing the same key
    again replaces the entry and restarts its age. *)
Theorem X1_cache_roundtrip cache key d t0 d' t1 t :
  getCachedResponse (cacheResponse cache key d t0) key t =
    (if t - t0 <? CACHE_TTL then Some (CachedData d (t - t0)) else None) /\
  getCachedResponse (cacheResponse (cacheResponse cache key d t0) key d' t1) key t =
    (if t - t1 <? CACHE_TTL then Some (CachedData d' (t - t1)) else None).
Proof.
  unfold getCachedResponse, cacheResponse.
  rewrite insert_insert_eq, !lookup_insert_eq. simpl. done.
Qed.

(** ** The retry loop *)

(** X2. One run of [retryRequest(config)] sleeps not at all, or 1 s, or 1 s
    and then 2 s: the backoff doubles from [RETRY_DELAY] and the total
    sleep never exceeds 3 s. *)
Theorem X2_retry_backoff_schedule config net :
  rr_delays (retryRequest config net 1) = [] \/
  rr_delays (retryRequest config net 1) = [1000] \/
  rr_delays (retryRequest config net 1) = [1000; 2000].
Proof.
  unfold retryRequest, RETRY_ATTEMPTS. simpl.
  destruct (net 1%nat) as [|st1 rq1]; simpl; [by left|].
  destruct (status5xx st1); simpl; [|by left].
  destruct (net 2%nat) as [|st2 rq2]; simpl; [by right; left|].
  destruct (status5xx st2); simpl; [|by right; left].
  destruct (net 3%nat); simpl; by right; right.
Qed.

(** X3. [retryRequest(config)] returns a response exactly when one of its
    first three calls succeeds and every call before that one failed with a
    status in 500..599; the response returned is that of the first
    success. *)
Theorem X3_retry_returns_first_success config net r :
  rr_result (retryRequest config net 1) = RetryReturn r <->
  exists a st body,
    (1 <= a <= RETRY_ATTEMPTS)%nat /\
    net a = NetOk st body /\
    r = liveResponse st body /\
    forall a', (1 <= a' < a)%nat ->
               exists st' rq, net a' = NetFail st' rq /\ status5xx st' = true.
Proof.
  unfold retryRequest, RETRY_ATTEMPTS. simpl. split.
  - destruct (net 1%nat) as [s1 b1|st1 rq1] eqn:E1; simpl.
    { intros [= <-]. exists 1%nat, s1, b1. repeat split; try done; try lia. }
    destruct (status5xx st1) eqn:S1; simpl; [|done].
    destruct (net 2%nat) as [s2 b2|st2 rq2] eqn:E2; simpl.
    { intros [= <-]. exists 2%nat, s2, b2. repeat split; try done; try lia.
      intros a' Ha. assert (a' = 1%nat) as -> by lia. eauto. }
    destruct (status5xx st2) eqn:S2; simpl; [|done].
    destruct (net 3%nat) as [s3 b3|st3 rq3] eqn:E3; simpl; [|done].
    intros [= <-]. exists 3%nat, s3, b3. repeat split; try done; try lia.
    intros a' Ha. assert (a' = 1%nat \/ a' = 2%nat) as [-> | ->] by lia; eauto.
  - intros (a & st & body & Ha & Hok & -> & Hbefore).
    assert (a = 1%nat \/ a = 2%nat \/ a = 3%nat) as [-> | [-> | ->]] by lia.
    + by rewrite Hok.
    + destruct (Hbefore 1%nat ltac:(lia)) as (st1 & rq1 & -> & ->). simpl.
      by rewrite Hok.
    + destruct (Hbefore 1%nat ltac:(lia)) as (st1 & rq1 & -> & ->). simpl.
      destruct (Hbefore 2%nat ltac:(lia)) as (st2 & rq2 & -> & ->). simpl.
      by rewrite Hok.
Qed.

(** X4. A logical call never makes more than four live calls: the first
    attempt and at most [RETRY_ATTEMPTS] inside [retryRequest]. *)
Theorem X4_dispatch_live_calls_bound s config r :
  (snd (dispatch s config r) <= 1 + RETRY_ATTEMPTS)%nat.
Proof.
  unfold dispatch.
  pose proof (requestInterceptor_throws s config (t_request r)) as Ht.
  destruct (requestInterceptor _ _ _) as [s1 [c|t]]; simpl in *.
  - destruct (first r) as [st body|st rq].
    + destruct (onFulfilled _ _ _ _ _). simpl. lia.
    + pose proof (retryRequest_calls_bound c (retries r)) as Hb.
      unfold onRejected.
      cbn [errorOf err_config err_status fmap option_fmap option_map from_option].
      destruct (status5xx st).
      * destruct (rr_result _); simpl; [lia|].
        destruct (settle _ _ _ _ _). simpl. lia.
      * destruct (settle _ _ _ _ _). simpl. lia.
  - destruct (onRejected_thrown s1 config (t_request r) t (retries r) (t_settled r)
                (Ht t eq_refl)) as [_ ->].
    lia.
Qed.

(** X5. Only a status in 500..599 is retried. When the first attempt of a
    call that went live fails otherwise (a 4xx, or no response at all, as
    on a network error) the call makes exactly one live call. *)
Theorem X5_only_5xx_is_retried s config r st rq :
  snd (requestInterceptor s config (t_request r)) = Proceed config ->
  first r = NetFail st rq ->
  status5xx st = false ->
  snd (dispatch s config r) = 1%nat.
Proof.
  intros Hp Hf Hs. unfold dispatch.
  destruct (requestInterceptor _ _ _) as [s1 i]; simpl in *. subst i.
  rewrite Hf. unfold onRejected.
  cbn [errorOf err_config err_status fmap option_fmap option_map from_option].
  rewrite Hs. by destruct (settle _ _ _ _ _).
Qed.

Lemma X5_only_5xx_is_retried_witness :
  snd (dispatch emptyStore (mkConfig "/expenses" GET)
                (mkRun 0 (NetFail None true) 5 (fun _ => ok200) 9)) = 1%nat.
Proof.
  apply (X5_only_5xx_is_retried emptyStore (mkConfig "/expenses" GET)
           (mkRun 0 (NetFail None true) 5 (fun _ => ok200) 9) None true).
  - vm_compute. reflexivity.
  - reflexivity.
  - reflexivity.
Defined.

(** ** The breaker *)

(** X6. In every store the handlers can produce, a CLOSED breaker has
    fewer than [CIRCUIT_BREAKER_THRESHOLD] failures on record and a breaker
    that is OPEN or HALF_OPEN has at least that many and a
    lastFailureTime. *)
Theorem X6_breaker_invariant s k b :
  reachable s ->
  circuitBreakers s !! k = Some b ->
  match state b with
  | CLOSED => 0 <= failureCount b < CIRCUIT_BREAKER_THRESHOLD
  | _ => CIRCUIT_BREAKER_THRESHOLD <= failureCount b /\ is_Some (lastFailureTime b)
  end.
Proof. intros Hr Hb. exact (reachable_storeOk s Hr k b Hb). Qed.

Lemma X6_breaker_invariant_witness :
  CIRCUIT_BREAKER_THRESHOLD <= failureCount (mkBreaker OPEN 5 (Some 0) None) /\
  is_Some (lastFailureTime (mkBreaker OPEN 5 (Some 0) None)).
Proof.
  apply (X6_breaker_invariant trippedStore "/expenses" (mkBreaker OPEN 5 (Some 0) None)).
  - exact trippedStore_reachable.
  - vm_compute. reflexivity.
Defined.

(** The breaker of a call that went live and failed, as the rejection
    handler leaves it. *)
Lemma dispatch_live_failure_breaker s config r e :
  url config <> "" ->
  snd (requestInterceptor s config (t_request r)) = Proceed config ->
  liveFailure config r = Some e ->
  countsAsFailure e = true ->
  exists b,
    fst (breakerGate (circuitBreakers s) (responseCache s) config (t_request r))
      !! url config = Some b /\
    breakerAt (circuitBreakers (fst (fst (dispatch s config r)))) (url config) =
      mkBreaker (if CIRCUIT_BREAKER_THRESHOLD <=? failureCount b + 1 then OPEN else state b)
                (failureCount b + 1) (Some (t_response r)) (lastSuccessTime b).
Proof.
  intros Hne%nonEmpty_true Hp Hl Hc.
  destruct (requestInterceptor_proceed_inv _ _ _ _ Hp) as (Hg & _ & Hs1).
  destruct (breakerGate_pass _ _ _ _ Hg) as (b & Hb & _).
  exists b. split; [done|].
  unfold dispatch.
  destruct (requestInterceptor s config (t_request r)) as [s1 i]; simpl in *.
  subst i s1. unfold liveFailure in Hl.
  destruct (first r) as [st body|st rq]; [done|].
  unfold onRejected.
  cbn [errorOf err_config err_status fmap option_fmap option_map from_option].
  set (s1 := mkStore _ _ _) in *.
  assert (countsAsFailure (errorOf config st rq) = true) as Hc0.
  { destruct (status5xx st) eqn:E5.
    - unfold countsAsFailure. simpl. by rewrite (status5xx_atLeast500 _ E5).
    - by injection Hl as <-. }
  pose proof (recordFailure_breakerAt s1 config st rq (t_response r) Hne) as Hrec.
  assert (breakerAt (circuitBreakers s1) (url config) = b) as Hb1.
  { unfold breakerAt, getCircuitBreaker, s1. simpl. by rewrite Hb. }
  rewrite Hc0, Hb1 in Hrec. cbv zeta in Hrec.
  assert (forall e' t,
            breakerAt (circuitBreakers
                         (fst (settle (recordFailure s1 (errorOf config st rq) (t_response r))
                                      (Some (url config)) (method config) e' t)))
                      (url config) =
            mkBreaker (if CIRCUIT_BREAKER_THRESHOLD <=? failureCount b + 1
                       then OPEN else state b)
                      (failureCount b + 1) (Some (t_response r)) (lastSuccessTime b)) as Hset.
  { intros e' t. by rewrite settle_breakerAt, Hrec. }
  destruct (status5xx st).
  - destruct (rr_result _) as [|e']; [done|].
    specialize (Hset e' (t_settled r)). by destruct (settle _ _ _ _ _).
  - specialize (Hset (errorOf config st rq) (t_response r)). by destruct (settle _ _ _ _ _).
Qed.

(** X7. A CLOSED breaker opens at the failure that brings its failureCount
    to [CIRCUIT_BREAKER_THRESHOLD], and not before: after a call to a url
    that is not empty and is not the name of a property every object
    inherits, that went live and ended in an error the breaker counts, the
    breaker of its url, CLOSED before the call, has one failure more, is
    stamped with the time the first attempt failed (not the time the
    retries ended), and is OPEN exactly when the new count is 5 or more. *)
Theorem X7_closed_breaker_opens_at_threshold s config r e :
  url config <> "" ->
  inheritedName (url config) = false ->
  snd (requestInterceptor s config (t_request r)) = Proceed config ->
  liveFailure config r = Some e ->
  countsAsFailure e = true ->
  state (breakerAt (circuitBreakers s) (url config)) = CLOSED ->
  breakerAt (circuitBreakers (fst (fst (dispatch s config r)))) (url config) =
  mkBreaker
    (if CIRCUIT_BREAKER_THRESHOLD <=?
          failureCount (breakerAt (circuitBreakers s) (url config)) + 1
     then OPEN else CLOSED)
    (failureCount (breakerAt (circuitBreakers s) (url config)) + 1)
    (Some (t_response r))
    (lastSuccessTime (breakerAt (circuitBreakers s) (url config))).
Proof.
  intros Hne _ Hp Hl Hc Hclosed.
  destruct (dispatch_live_failure_breaker s config r e Hne Hp Hl Hc) as (b & Hb & ->).
  assert (b = breakerAt (circuitBreakers s) (url config)) as ->; [|by rewrite Hclosed].
  revert Hb Hclosed. unfold breakerGate, breakerAt.
  pose proof (getCircuitBreaker_lookup (circuitBreakers s) (url config)) as L.
  destruct (getCircuitBreaker _ _) as [cbs b0]; simpl in *.
  intros Hb Hclosed. rewrite Hclosed in Hb. simpl in Hb. congruence.
Qed.

Lemma X7_closed_breaker_opens_at_threshold_witness :
  breakerAt (circuitBreakers
               (fst (fst (dispatch
                            (repeatDispatch 4 emptyStore (mkConfig "/budgets" PUT) (runFail 0))
                            (mkConfig "/budgets" PUT) (runFail 50)))))
            "/budgets" =
  mkBreaker OPEN 5 (Some 50) None.
Proof.
  apply (X7_closed_breaker_opens_at_threshold
           (repeatDispatch 4 emptyStore (mkConfig "/budgets" PUT) (runFail 0))
           (mkConfig "/budgets" PUT) (runFail 50)
           (errorOf (mkConfig "/budgets" PUT) (Some 503) true)).
  - discriminate.
  - reflexivity.
  - vm_compute. reflexivity.
  - vm_compute. reflexivity.
  - reflexivity.
  - vm_compute. reflexivity.
Defined.

(** X8. While the breaker of a path is OPEN and its cooldown of 30 s has
    not elapsed, no sequence of calls to that path, of whatever methods,
    makes a single live call, and the stores stay exactly as they are. *)
Theorem X8_no_live_call_during_cooldown s endpoint b calls :
  circuitBreakers s !! endpoint = Some b ->
  state b = OPEN ->
  Forall (fun c => url (fst c) = endpoint /\
                   t_request (snd c) - timeOrNull (lastFailureTime b)
                     <= CIRCUIT_BREAKER_TIMEOUT) calls ->
  dispatchAll s calls = (s, O).
Proof.
  intros Hb Hs Hall. induction Hall as [|[config r] rest [Hu Ht] _ IH]; [done|].
  simpl in *. subst endpoint.
  assert (shouldAttemptReset b (t_request r) = false) as Hr.
  { unfold shouldAttemptReset. rewrite Hs. apply Z.ltb_ge. lia. }
  rewrite (open_breaker_resolves s config r b Hb Hs Hr). by rewrite IH.
Qed.

Lemma X8_no_live_call_during_cooldown_witness :
  dispatchAll trippedStore
    [ (mkConfig "/expenses" GET, runOk 10);
      (mkConfig "/expenses" DELETE, runOk 29999);
      (mkConfig "/expenses" POST, runFail 30000) ] = (trippedStore, O).
Proof.
  apply (X8_no_live_call_during_cooldown trippedStore "/expenses"
           (mkBreaker OPEN 5 (Some 0) None)).
  - vm_compute. reflexivity.
  - reflexivity.
  - repeat constructor; vm_compute; discriminate.
Defined.

(** ** The throttle *)





(** ** Substitution after a live failure *)

(** X10. A GET (to a non-empty path) that went live and ended, retries
    included, in an error with a status of 500 or more or without any
    response is never rejected: the caller gets the cached payload of its
    path if one is valid when the handler settles, and the fallback data of
    the path otherwise. *)
Theorem X10_get_failure_is_masked s endpoint r e :
  endpoint <> "" ->
  snd (requestInterceptor s (mkConfig endpoint GET) (t_request r)) =
    Proceed (mkConfig endpoint GET) ->
  liveFailure (mkConfig endpoint GET) r = Some e ->
  statusAtLeast500 (err_status e) || noResponse (err_status e) = true ->
  exists t,
    (t = t_response r \/ t = t_settled r) /\
    snd (fst (dispatch s (mkConfig endpoint GET) r)) =
    Resolved match getCachedResponse (responseCache s) (cacheKeyOf GET endpoint) t with
             | Some cachedResponse =>
                 mkResponse cachedResponse (Some 200) (Some "OK (Cached Fallback)")
             | None => getFallbackResponse endpoint GET t
             end.
Proof.
  intros Hne%nonEmpty_true Hp Hl He.
  destruct (requestInterceptor_stores s (mkConfig endpoint GET) (t_request r))
    as (_ & Hcache & _).
  unfold dispatch.
  destruct (requestInterceptor s _ (t_request r)) as [s1 i]; simpl in *.
  subst i. unfold liveFailure in Hl.
  destruct (first r) as [st body|st rq]; [done|].
  unfold onRejected.
  cbn [errorOf err_config err_status fmap option_fmap option_map from_option url method].
  assert (forall t,
            snd (settle (recordFailure s1 (errorOf (mkConfig endpoint GET) st rq)
                                       (t_response r))
                        (Some endpoint) GET e t) =
            Resolved match getCachedResponse (responseCache s) (cacheKeyOf GET endpoint) t with
                     | Some cachedResponse =>
                         mkResponse cachedResponse (Some 200) (Some "OK (Cached Fallback)")
                     | None => getFallbackResponse endpoint GET t
                     end) as Hset.
  { intros t. unfold settle. rewrite Hne, He, recordFailure_cache, Hcache. simpl.
    by destruct (getCachedResponse _ _ _). }
  destruct (status5xx st).
  - destruct (rr_result _) as [|e']; [done|]. injection Hl as ->.
    exists (t_settled r). split; [by right|].
    specialize (Hset (t_settled r)). by destruct (settle _ _ _ _ _).
  - injection Hl as <-. exists (t_response r). split; [by left|].
    specialize (Hset (t_response r)). by destruct (settle _ _ _ _ _).
Qed.

Lemma X10_get_failure_is_masked_witness :
  exists t,
    (t = 7 \/ t = 7) /\
    snd (fst (dispatch emptyStore (mkConfig "/categories" GET) (runFail 7))) =
    Resolved (getFallbackResponse "/categories" GET t).
Proof.
  apply (X10_get_failure_is_masked emptyStore "/categories" (runFail 7)
           (errorOf (mkConfig "/categories" GET) (Some 503) true)).
  - discriminate.
  - vm_compute. reflexivity.
  - vm_compute. reflexivity.
  - reflexivity.
Defined.

(** X11. A mutating request (POST, PUT, DELETE or PATCH) that went live
    and failed, retries included, is always rejected, with the status of
    the final error: neither a cached payload nor fallback data is put in
    its place. *)
Theorem X11_mutating_failure_is_rejected s config r e :
  reachable s ->
  is_mutating (method config) = true ->
  snd (requestInterceptor s config (t_request r)) = Proceed config ->
  liveFailure config r = Some e ->
  exists err, snd (fst (dispatch s config r)) = Rejected err /\
              ee_status err = err_status e /\
              ee_fallbackAttempted err = true.
Proof.
  intros Hreach Hm Hp Hl.
  destruct (mutating_live_failure_rejected s config r e Hreach Hm Hp Hl) as (err & H1 & H2).
  exists err. repeat split; try done.
  revert H1. unfold dispatch.
  destruct (requestInterceptor s config (t_request r)) as [s1 i]; simpl in *. subst i.
  unfold liveFailure in Hl. destruct (first r) as [st body|st rq]; [done|].
  unfold onRejected.
  cbn [errorOf err_config err_status fmap option_fmap option_map from_option].
  assert (forall s0 e0 t err0,
            snd (settle s0 (Some (url config)) (method config) e0 t) = Rejected err0 ->
            ee_fallbackAttempted err0 = true) as Hfa.
  { intros s0 e0 t err0. unfold settle, reject.
    repeat (match goal with
            | |- context [match ?x with _ => _ end] => destruct x
            | |- context [let '(_, _) := ?x in _] => destruct x
            end; simpl); try done; by intros [= <-]. }
  destruct (status5xx st).
  - destruct (rr_result _) as [|e']; [done|].
    specialize (Hfa (recordFailure s1 (errorOf config st rq) (t_response r)) e'
                    (t_settled r) err).
    destruct (settle _ _ _ _ _). simpl in *. done.
  - specialize (Hfa (recordFailure s1 (errorOf config st rq) (t_response r))
                    (errorOf config st rq) (t_response r) err).
    destruct (settle _ _ _ _ _). simpl in *. done.
Qed.

Lemma X11_mutating_failure_is_rejected_witness :
  exists err,
    snd (fst (dispatch warmStore (mkConfig "/expenses" POST) (runFail 2000))) = Rejected err /\
    ee_status err = Some 503 /\
    ee_fallbackAttempted err = true.
Proof.
  apply (X11_mutating_failure_is_rejected warmStore (mkConfig "/expenses" POST) (runFail 2000)
           (errorOf (mkConfig "/expenses" POST) (Some 503) true)).
  - apply dispatch_reachable, reach_init.
  - reflexivity.
  - vm_compute. reflexivity.
  - vm_compute. reflexivity.
Defined.

(** X12. In every store the handlers can produce, each entry of the
    response cache sits under the key of a GET and holds a truthy payload:
    responses to other methods and empty bodies are never cached. *)
Theorem X12_cache_holds_truthy_get_payloads s k entry :
  reachable s ->
  responseCache s !! k = Some entry ->
  (exists endpoint, k = cacheKeyOf GET endpoint) /\ truthy (ce_data entry) = true.
Proof.
  intros Hr. revert k entry.
  induction Hr as [|s config now _ IH|s config st body now _ IH|s error now _ IH
                   |s endpoint m error now _ IH]; intros k entry.
  - unfold emptyStore. simpl. by rewrite lookup_empty.
  - destruct (requestInterceptor_stores s config now) as (_ & -> & _). apply IH.
  - unfold onFulfilled. destruct (getCircuitBreaker _ _) as [cbs b]. simpl.
    destruct (is_GET (method config)) eqn:G; simpl; [|apply IH].
    destruct (truthy body) eqn:T; simpl; [|apply IH].
    destruct (st =? 200); [|apply IH].
    unfold cacheResponse. rewrite lookup_insert.
    case_decide as Hk; [|apply IH].
    intros [= <-]. split; [|done].
    exists (url config). rewrite <- Hk. by destruct (method config).
  - rewrite recordFailure_cache. apply IH.
  - rewrite settle_cache. apply IH.
Qed.

Lemma X12_cache_holds_truthy_get_payloads_witness :
  (exists endpoint, "GET:/expenses" = cacheKeyOf GET endpoint) /\
  truthy (ce_data (mkCacheEntry (JObj "{...}") 0)) = true.
Proof.
  apply (X12_cache_holds_truthy_get_payloads warmStore "GET:/expenses"
           (mkCacheEntry (JObj "{...}") 0)).
  - apply dispatch_reachable, reach_init.
  - vm_compute. reflexivity.
Defined.

(** ** The deprecated endpoint and late responses *)

(** X13. A request to /settings/defaults never reaches the network,
    whatever its method, the stores and the clock: it is answered by the
    breaker check, by the throttle or with the deprecation notice. *)
Theorem X13_deprecated_endpoint_never_live s m r :
  snd (dispatch s (mkConfig "/settings/defaults" m) r) = O.
Proof.
  unfold dispatch.
  pose proof (requestInterceptor_throws s (mkConfig "/settings/defaults" m) (t_request r))
    as Ht.
  assert (exists t, snd (requestInterceptor s (mkConfig "/settings/defaults" m)
                                            (t_request r)) = Throw t) as [t Et].
  { unfold requestInterceptor.
    destruct (breakerGate _ _ _ _) as [cbs [t1|]]; simpl; [eauto|].
    destruct (throttleGate _ _ _ _) as [rc [t2|]]; simpl; eauto. }
  destruct (requestInterceptor _ _ _) as [s1 i]; simpl in *. subst i.
  by destruct (onRejected_thrown s1 (mkConfig "/settings/defaults" m) (t_request r) t
                 (retries r) (t_settled r) (Ht t eq_refl)) as [_ ->].
Qed.

(** X14. A success that arrives while the breaker of its path is OPEN
    (the breaker was tripped by other calls while this one was in flight)
    does not close the breaker nor reset its failureCount: the breakers are
    left exactly as they are, and a request to the path made after it,
    still within the cooldown, makes no live call. *)
Theorem X14_late_success_keeps_breaker_open s config st body now b m r :
  circuitBreakers s !! url config = Some b ->
  state b = OPEN ->
  t_request r - timeOrNull (lastFailureTime b) <= CIRCUIT_BREAKER_TIMEOUT ->
  circuitBreakers (fst (onFulfilled s config st body now)) = circuitBreakers s /\
  snd (dispatch (fst (onFulfilled s config st body now)) (mkConfig (url config) m) r) = O.
Proof.
  intros Hb Hs Ht.
  assert (circuitBreakers (fst (onFulfilled s config st body now)) = circuitBreakers s) as E.
  { unfold onFulfilled. rewrite (getCircuitBreaker_present _ _ _ Hb). by rewrite Hs. }
  split; [exact E|].
  assert (shouldAttemptReset b (t_request r) = false) as Hr.
  { unfold shouldAttemptReset. rewrite Hs. apply Z.ltb_ge. lia. }
  rewrite (open_breaker_resolves _ (mkConfig (url config) m) r b); [done| |done|done].
  simpl. by rewrite E.
Qed.

Lemma X14_late_success_keeps_breaker_open_witness :
  circuitBreakers (fst (onFulfilled trippedStore (mkConfig "/expenses" GET) 200
                                    (JObj "{...}") 60))
    = circuitBreakers trippedStore /\
  snd (dispatch (fst (onFulfilled trippedStore (mkConfig "/expenses" GET) 200
                                  (JObj "{...}") 60))
                (mkConfig "/expenses" GET) (runOk 70)) = O.
Proof.
  apply (X14_late_success_keeps_breaker_open trippedStore (mkConfig "/expenses" GET) 200
           (JObj "{...}") 60 (mkBreaker OPEN 5 (Some 0) None) GET (runOk 70)).
  - vm_compute. reflexivity.
  - reflexivity.
  - vm_compute. discriminate.
Defined.

(** ** The fallback data *)

Lemma prefix_spec (p s : string) :
  String.prefix p s = true <-> exists post, s = p +:+ post.
Proof.
  revert s. induction p as [|a p IH]; intros s.
  - split; [intros _; exists s; reflexivity|intros _; by destruct s].
  - destruct s as [|b s]; [split; [done|by intros [post [=]]]|].
    change (String.prefix (String a p) (String b s))
      with (if Ascii.ascii_dec a b then String.prefix p s else false).
    destruct (Ascii.ascii_dec a b) as [->|Hab].
    + rewrite IH. split; intros [post E]; exists post.
      * change (String b p +:+ post) with (String b (p +:+ post)). by rewrite E.
      * change (String b p +:+ post) with (String b (p +:+ post)) in E. by injection E.
    + split; [done|]. intros [post E].
      change (String a p +:+ post) with (String a (p +:+ post)) in E.
      injection E as E _. by destruct Hab.
Qed.

(** [includes key s] holds exactly when [key] occurs somewhere in [s]. *)
Lemma includes_spec (key s : string) :
  includes key s = true <-> exists pre post, s = pre +:+ key +:+ post.
Proof.
  induction s as [|b s IH]; cbn [includes].
  - rewrite orb_false_r, prefix_spec. split.
    + intros [post E]. by exists "", post.
    + intros (pre & post & E). destruct pre as [|c pre]; [by exists post|].
      change (String c pre +:+ key +:+ post) with (String c (pre +:+ key +:+ post)) in E.
      done.
  - rewrite orb_true_iff, prefix_spec, IH. split.
    + intros [[post E] | (pre & post & E)].
      * by exists "", post.
      * exists (String b pre), post.
        change (String b pre +:+ key +:+ post) with (String b (pre +:+ key +:+ post)).
        by rewrite E.
    + intros ([|c pre] & post & E).
      * left. by exists post.
      * right.
        change (String c pre +:+ key +:+ post) with (String c (pre +:+ key +:+ post)) in E.
        injection E as -> E. by exists pre, post.
Qed.

(** X15. The fallback response for a path carries status 200 and a body
    with success: true exactly when the path contains "/settings",
    "/expenses" or "/budgets" anywhere in it (not only at its start);
    every other path gets status 503 and success: false. In both cases the
    body is tagged as fallback and names the path. *)
Theorem X15_fallback_by_substring endpoint m now :
  let known := exists key pre post,
                 (key = "/settings" \/ key = "/expenses" \/ key = "/budgets") /\
                 endpoint = pre +:+ key +:+ post in
  (known /\ exists body, getFallbackResponse endpoint m now =
                         mkResponse (FallbackBody body endpoint now) (Some 200)
                                    (Some "OK (Fallback)") /\
                         fb_success body = true) \/
  (~ known /\ exists body, getFallbackResponse endpoint m now =
                           mkResponse (FallbackBody body endpoint now) (Some 503)
                                      (Some "Service Unavailable (Fallback)") /\
                           fb_success body = false).
Proof.
  intros known. unfold getFallbackResponse, fallbackData. cbn [find fst].
  assert (forall key, (key = "/settings" \/ key = "/expenses" \/ key = "/budgets") ->
                      includes key endpoint = true -> known) as Hknown.
  { intros key Hkey (pre & post & E)%includes_spec. by exists key, pre, post. }
  destruct (includes "/settings" endpoint) eqn:E1; simpl.
  { left. split; [apply (Hknown "/settings"); auto|eexists; split; reflexivity]. }
  destruct (includes "/expenses" endpoint) eqn:E2; simpl.
  { left. destruct (String.prefix "/settings" endpoint); simpl;
      (split; [apply (Hknown "/expenses"); auto|eexists; split; reflexivity]). }
  destruct (includes "/budgets" endpoint) eqn:E3; simpl.
  { left.
    destruct (String.prefix "/settings" endpoint), (String.prefix "/expenses" endpoint);
      simpl; (split; [apply (Hknown "/budgets"); auto|eexists; split; reflexivity]). }
  assert (forall key, includes key endpoint = false -> String.prefix key endpoint = false)
    as Hp.
  { intros key Hk. destruct (String.prefix key endpoint) eqn:P; [|done].
    apply prefix_spec in P as [post P].
    assert (includes key endpoint = true) as Hin; [|congruence].
    apply includes_spec. by exists "", post. }
  rewrite (Hp _ E1), (Hp _ E2), (Hp _ E3). simpl.
  right. split; [|eexists; split; reflexivity].
  intros (key & pre & post & Hkey & E).
  assert (includes key endpoint = true) as Hin by (apply includes_spec; eauto).
  destruct Hkey as [-> | [-> | ->]]; congruence.
Qed.

(** * The code around the dispatcher *)

(** ** Error parsing *)

(** X17. The breaker and [parseError] agree on what a failure of the
    service is. For an error whose request has a url that is not empty and
    is not the name of a property every object inherits, the rejection
    handler counts the error against the breaker of the url (one failure
    more, the time stamped, OPEN from the threshold on) exactly when
    [parseError] classifies it as SERVER or NETWORK, whatever the body of
    the response, and leaves the breaker as it was for every other class;
    an error without a request configuration, or with an empty url, is
    never counted, whatever its class. *)
Theorem X17_breaker_counts_server_and_network s config st rq msg now dataError dataMessage :
  url config <> "" ->
  inheritedName (url config) = false ->
  breakerAt (circuitBreakers (recordFailure s (mkError (Some config) st rq msg) now))
            (url config) =
    match ae_type (parseError (IsRawError (rawOf (mkError (Some config) st rq msg)
                                                 dataError dataMessage))) with
    | SERVER | NETWORK =>
        mkBreaker
          (if CIRCUIT_BREAKER_THRESHOLD <=?
                failureCount (breakerAt (circuitBreakers s) (url config)) + 1
           then OPEN else state (breakerAt (circuitBreakers s) (url config)))
          (failureCount (breakerAt (circuitBreakers s) (url config)) + 1)
          (Some now)
          (lastSuccessTime (breakerAt (circuitBreakers s) (url config)))
    | _ => breakerAt (circuitBreakers s) (url config)
    end /\
  recordFailure s (mkError None st rq msg) now = s /\
  (forall m, recordFailure s (mkError (Some (mkConfig "" m)) st rq msg) now = s).
Proof.
  intros Hne%nonEmpty_true _. split; [|split; [reflexivity|reflexivity]].
  unfold recordFailure. cbn [err_config err_status err_request]. rewrite Hne.
  pose proof (breakerAt_get (circuitBreakers s) (url config)) as G.
  assert (snd (getCircuitBreaker (circuitBreakers s) (url config)) =
          breakerAt (circuitBreakers s) (url config)) as Hb by reflexivity.
  set (b0 := breakerAt (circuitBreakers s) (url config)) in *.
  destruct (getCircuitBreaker (circuitBreakers s) (url config)) as [cbs b]; simpl in *.
  subst b. set (b := b0) in *.
  unfold parseError, rawOf. simpl.
  assert (breakerAt (<[url config :=
                         mkBreaker (if CIRCUIT_BREAKER_THRESHOLD <=? failureCount b + 1
                                    then OPEN else state b)
                                   (failureCount b + 1) (Some now) (lastSuccessTime b)]> cbs)
                    (url config) =
          mkBreaker (if CIRCUIT_BREAKER_THRESHOLD <=? failureCount b + 1
                     then OPEN else state b)
                    (failureCount b + 1) (Some now) (lastSuccessTime b)) as Hin.
  { unfold breakerAt, getCircuitBreaker. by rewrite lookup_insert_eq. }
  destruct st as [st|]; simpl.
  - rewrite orb_false_r.
    destruct (Z.eqb_spec st 401) as [->|H1]; simpl; [exact G|].
    destruct (Z.eqb_spec st 403) as [->|H3]; simpl; [exact G|].
    destruct (Z.leb_spec 400 st), (Z.ltb_spec st 500), (Z.leb_spec 500 st);
      simpl; try lia; first [exact Hin | exact G].
  - destruct rq; simpl; [exact Hin|].
    destruct (nonEmpty msg); exact G.
Qed.

Lemma X17_breaker_counts_server_and_network_witness :
  breakerAt (circuitBreakers
               (recordFailure emptyStore
                  (mkError (Some (mkConfig "/expenses" GET)) (Some 502) true "Bad Gateway") 7))
            "/expenses" =
    mkBreaker CLOSED 1 (Some 7) None /\
  breakerAt (circuitBreakers
               (recordFailure emptyStore
                  (mkError (Some (mkConfig "/expenses" GET)) (Some 422) true "Unprocessable") 7))
            "/expenses" =
    mkBreaker CLOSED 0 None None.
Proof.
  split.
  - destruct (X17_breaker_counts_server_and_network emptyStore (mkConfig "/expenses" GET)
                (Some 502) true "Bad Gateway" 7 "" "") as [H _].
    + discriminate.
    + reflexivity.
    + exact H.
  - destruct (X17_breaker_counts_server_and_network emptyStore (mkConfig "/expenses" GET)
                (Some 422) true "Unprocessable" 7 "" "") as [H _].
    + discriminate.
    + reflexivity.
    + exact H.
Defined.

(** X18. The rejection handler clears the stored credentials and
    dispatches the logout event exactly for an error whose response has
    status 401: a 403, a server error, a network error or a throttled
    request never logs the user out. *)
Theorem X18_logout_only_on_401 error dataError dataMessage :
  signalsLogout error dataError dataMessage = true <-> err_status error = Some 401.
Proof.
  unfold signalsLogout, parseError, rawOf. simpl.
  destruct (err_status error) as [st|]; simpl.
  - destruct (Z.eqb_spec st 401) as [->|H1]; simpl; [done|].
    destruct (st =? 403); simpl; [split; [done|congruence]|].
    destruct (_ && _); simpl; [split; [done|congruence]|].
    destruct (500 <=? st); simpl; (split; [done|congruence]).
  - destruct (err_request error); simpl; [done|].
    by destruct (nonEmpty _).
Qed.

Lemma orElse_nonempty a b : b <> "" -> orElse a b <> "".
Proof.
  intros Hb. unfold orElse, nonEmpty.
  destruct (String.eqb_spec a ""); simpl; done.
Qed.

(** X19. [getErrorMessage] never returns an empty message, whatever it is
    given: an empty message of the error is replaced by a default text. *)
Theorem X19_error_message_never_empty c : getErrorMessage c <> "".
Proof.
  unfold getErrorMessage.
  destruct (ae_type (parseError c)); try done; by apply orElse_nonempty.
Qed.

(** X20. For a response with status 401, 403 or 500 and more, the message
    [getErrorMessage] gives depends on the status alone: nothing of the
    response body or of the error's own message reaches the user. *)
Theorem X20_error_message_hides_server_text st dE dM rq msg dE' dM' rq' msg' :
  st = 401 \/ st = 403 \/ 500 <= st ->
  getErrorMessage (IsRawError (mkRawError (Some (mkErrorResponse st dE dM)) rq msg)) =
  getErrorMessage (IsRawError (mkRawError (Some (mkErrorResponse st dE' dM')) rq' msg')).
Proof.
  intros Hst. unfold getErrorMessage, parseError. simpl.
  destruct (Z.eqb_spec st 401); [done|].
  destruct (Z.eqb_spec st 403); [done|].
  assert (500 <= st) as H5 by lia.
  destruct (Z.leb_spec 400 st), (Z.ltb_spec st 500), (Z.leb_spec 500 st);
    simpl; try lia; done.
Qed.

Lemma X20_error_message_hides_server_text_witness :
  getErrorMessage
    (IsRawError (mkRawError (Some (mkErrorResponse 502 "stack trace" "boom")) true "x")) =
  getErrorMessage (IsRawError (mkRawError (Some (mkErrorResponse 502 "" "")) false "")).
Proof.
  apply (X20_error_message_hides_server_text 502). lia.
Defined.

(** ** [handleError] *)

Lemma handleErrorFrom_facts {V : Type} (onRetry : option (nat -> Attempt V)) shouldLog :
  forall left error k,
    let h := handleErrorFrom left error shouldLog onRetry k in
    (h_retries h <= left)%nat /\
    (h_logouts h <= 1)%nat /\
    (h_logouts h = 1%nat <-> exists a, h_result h = inr a /\ ae_type a = AUTHENTICATION) /\
    (forall a, h_result h = inr a -> ae_type a = NETWORK ->
               onRetry = None \/ h_retries h = left).
Proof.
  assert (forall (p : AppError) lg (left : nat),
            (ae_type p = NETWORK -> onRetry = None \/ left = O) ->
            let h := mkHandled (V := V) (inr p) lg
                       (match ae_type p with AUTHENTICATION => 1%nat | _ => O end) O in
            (h_retries h <= left)%nat /\
            (h_logouts h <= 1)%nat /\
            (h_logouts h = 1%nat <->
             exists a, h_result h = inr a /\ ae_type a = AUTHENTICATION) /\
            (forall a, h_result h = inr a -> ae_type a = NETWORK ->
                       onRetry = None \/ h_retries h = left)) as Hstop.
  { intros p lg left Hn. simpl. split; [lia|]. split; [destruct (ae_type p); lia|].
    split.
    - split.
      + intros H1. exists p. split; [done|]. by destruct (ae_type p).
      + intros (x & [= <-] & Hx). by rewrite Hx.
    - intros x [= <-] Hx. destruct (Hn Hx) as [? | ->]; auto. }
  induction left as [|left IH]; intros error k.
  - assert (handleErrorFrom 0 error shouldLog onRetry k =
            mkHandled (inr (parseError error))
                      (if shouldLog then [parseError error] else [])
                      (match ae_type (parseError error) with
                       | AUTHENTICATION => 1%nat | _ => O end) O) as ->.
    { simpl. destruct (ae_type (parseError error)); try done; by destruct onRetry. }
    apply Hstop. auto.
  - cbn [handleErrorFrom].
    destruct (ae_type (parseError error)) eqn:T.
    2-7: (pose proof (Hstop (parseError error)
                            (if shouldLog then [parseError error] else []) (S left)) as Hs;
          rewrite T in Hs; apply Hs; done).
    destruct onRetry as [retry|] eqn:Er.
    + destruct (retry k) as [v|retryError].
      * simpl. split; [lia|]. split; [lia|]. split; [|done].
        split; [done|]. by intros (x & [=] & _).
      * destruct (IH retryError (S k)) as (I1 & I2 & I3 & I4). simpl in *.
        split; [lia|]. split; [lia|]. split; [done|].
        intros x Hx Hn. destruct (I4 x Hx Hn) as [|E]; [done|]. right. lia.
    + pose proof (Hstop (parseError error)
                        (if shouldLog then [parseError error] else []) (S left)) as Hs.
      rewrite T in Hs. apply Hs. auto.
Qed.

(** X21. [handleError] calls [onRetry] at most [maxRetries] times and
    signals a logout at most once, namely exactly when what it returns is
    an authentication error. *)
Theorem X21_handle_error_retry_budget {V : Type} (error : Caught) shouldLog
    (onRetry : option (nat -> Attempt V)) maxRetries :
  (h_retries (handleError error shouldLog onRetry maxRetries) <= Z.to_nat maxRetries)%nat /\
  (h_logouts (handleError error shouldLog onRetry maxRetries) <= 1)%nat /\
  (h_logouts (handleError error shouldLog onRetry maxRetries) = 1%nat <->
   exists a, h_result (handleError error shouldLog onRetry maxRetries) = inr a /\
             ae_type a = AUTHENTICATION).
Proof.
  destruct (handleErrorFrom_facts onRetry shouldLog (Z.to_nat maxRetries) error O)
    as (H1 & H2 & H3 & _).
  done.
Qed.

(** X22. [handleError] gives up on a network error only when it has no
    retry left: if it returns an error of type NETWORK, then either no
    [onRetry] was given or [onRetry] has been called [maxRetries] times
    (none at all for a [maxRetries] of 0 or less). *)
Theorem X22_network_error_exhausts_retries {V : Type} (error : Caught) shouldLog
    (onRetry : option (nat -> Attempt V)) maxRetries a :
  h_result (handleError error shouldLog onRetry maxRetries) = inr a ->
  ae_type a = NETWORK ->
  onRetry = None \/
  h_retries (handleError error shouldLog onRetry maxRetries) = Z.to_nat maxRetries.
Proof.
  destruct (handleErrorFrom_facts onRetry shouldLog (Z.to_nat maxRetries) error O)
    as (_ & _ & _ & H4).
  apply H4.
Qed.

Lemma X22_network_error_exhausts_retries_witness :
  Some (fun _ : nat => Raised (V := unit) (IsRawError (mkRawError None true "Network Error")))
    = None \/
  h_retries (handleError
               (IsRawError (mkRawError None true "Network Error")) true
               (Some (fun _ : nat =>
                        Raised (V := unit) (IsRawError (mkRawError None true "Network Error"))))
               2)
  = Z.to_nat 2.
Proof.
  apply (X22_network_error_exhausts_retries
           (IsRawError (mkRawError None true "Network Error")) true
           (Some (fun _ : nat =>
                    Raised (V := unit) (IsRawError (mkRawError None true "Network Error"))))
           2
           (mkAppError "Network error. Please check your connection and try again."
                       NETWORK HIGH)).
  - reflexivity.
  - reflexivity.
Defined.

(** ** Log sanitization *)

(** Induction on a value together with everything inside it. *)
Lemma Json_nested_ind (P : Json -> Prop) :
  P JsNull ->
  (forall b, P (JsBool b)) ->
  (forall n, P (JsNumber n)) ->
  (forall s, P (JsString s)) ->
  (forall items, Forall P items -> P (JsArray items)) ->
  (forall entries, Forall (fun entry => P (snd entry)) entries -> P (JsObject entries)) ->
  forall data, P data.
Proof.
  intros Hnull Hbool Hnum Hstr Harr Hobj.
  fix IH 1. intros [| b | n | s | items | entries].
  - exact Hnull.
  - apply Hbool.
  - apply Hnum.
  - apply Hstr.
  - apply Harr. induction items as [|x items IHitems]; constructor; [apply IH|exact IHitems].
  - apply Hobj. induction entries as [|[k v] entries IHentries]; constructor;
      [apply IH|exact IHentries].
Qed.

(** X23. After [sanitizeData] no object, at any depth of the value, holds
    anything but "[REDACTED]" under a key that contains token, password,
    secret, key, auth, bearer, authorization or credential in any mix of
    upper and lower case. *)
Theorem X23_sanitized_data_exposes_nothing data :
  exposes (sanitizeData data) = false.
Proof.
  induction data as [| | | |items IH|entries IH] using Json_nested_ind; try done.
  - simpl. induction IH as [|x items Hx _ IHitems]; [done|].
    simpl. by rewrite Hx, IHitems.
  - simpl. induction IH as [|[k v] entries Hv _ IHentries]; [done|].
    simpl in *. rewrite IHentries, orb_false_r.
    destruct (isSensitive k) eqn:S; [by rewrite S|].
    destruct v; rewrite S; try done; exact Hv.
Qed.

(** X24. [sanitizeData] is idempotent: sanitizing what is already
    sanitized changes nothing. *)
Theorem X24_sanitize_idempotent data :
  sanitizeData (sanitizeData data) = sanitizeData data.
Proof.
  induction data as [| | | |items IH|entries IH] using Json_nested_ind; try done.
  - simpl. f_equal. induction IH as [|x items Hx _ IHitems]; [done|].
    simpl. by rewrite Hx, IHitems.
  - simpl. f_equal. induction IH as [|[k v] entries Hv _ IHentries]; [done|].
    simpl in *. rewrite IHentries. f_equal.
    destruct (isSensitive k) eqn:S; [by rewrite S|].
    destruct v; rewrite S; try done; rewrite Hv; reflexivity.
Qed.



Example sanitize_login_body :
  sanitizeData
    (JsObject [ ("requestData",
                 JsObject [("email", JsString "a@b.c"); ("Password", JsString "hunter2")]);
                ("apiKey", JsObject [("id", JsNumber 7)]) ]) =
  JsObject [ ("requestData", JsObject [("email", JsString "a@b.c"); ("Password", REDACTED)]);
             ("apiKey", REDACTED) ].
Proof. vm_compute. reflexivity. Qed.

(** ** Secure storage *)

Lemma lxor_lt_pow2 (a b n : N) :
  (a < 2 ^ n -> b < 2 ^ n -> N.lxor a b < 2 ^ n)%N.
Proof.
  intros Ha Hb.
  assert (forall x, (x < 2 ^ n -> N.log2 x < n \/ n = 0)%N) as Hlog.
  { intros x Hx. destruct (N.eq_dec x 0%N) as [->|Hx0].
    - destruct (N.eq_dec n 0%N) as [->|Hn]; [by right|left]. simpl. lia.
    - left. apply N.log2_lt_pow2; [lia|done]. }
  destruct (N.eq_dec n 0%N) as [->|Hn].
  { rewrite N.pow_0_r in *. assert (a = 0%N) as -> by lia.
    assert (b = 0%N) as -> by lia. done. }
  destruct (N.eq_dec (N.lxor a b) 0%N) as [->|Hx].
  { apply N.neq_0_lt_0. by apply N.pow_nonzero. }
  apply N.log2_lt_pow2; [lia|].
  eapply N.le_lt_trans; [apply N.log2_lxor|].
  apply N.max_lub_lt.
  - destruct (Hlog a Ha); [done|lia].
  - destruct (Hlog b Hb); [done|lia].
Qed.

Lemma lxor_latin1 (a b : N) : (a <= 255 -> b <= 255 -> N.lxor a b <= 255)%N.
Proof.
  intros Ha Hb. pose proof (lxor_lt_pow2 a b 8) as H.
  change (2 ^ 8)%N with 256%N in H. lia.
Qed.

Lemma keyCharAt_latin1 key i :
  Forall (fun c => (c <= 255)%N) key -> (keyCharAt key i <= 255)%N.
Proof.
  intros Hk. unfold keyCharAt.
  destruct (nth_in_or_default (i mod length key) key 0%N) as [Hin | ->]; [|lia].
  rewrite List.Forall_forall in Hk. by apply Hk.
Qed.

Lemma xorFrom_latin1 key text : forall i,
  Forall (fun c => (c <= 255)%N) key ->
  Forall (fun c => (c <= 255)%N) text ->
  Forall (fun c => (c <= 255)%N) (xorFrom key i text).
Proof.
  induction text as [|c text IH]; intros i Hk Ht; simpl; [constructor|].
  inversion Ht as [|? ? Hc Hrest]; subst.
  pose proof (lxor_latin1 c (keyCharAt key i) Hc (keyCharAt_latin1 key i Hk)) as Hx.
  constructor; [|by apply IH].
  rewrite N.mod_small; lia.
Qed.

Lemma xorFrom_involutive key text : forall i,
  Forall (fun c => (c <= 255)%N) key ->
  Forall (fun c => (c <= 255)%N) text ->
  xorFrom key i (xorFrom key i text) = text.
Proof.
  induction text as [|c text IH]; intros i Hk Ht; simpl; [done|].
  inversion Ht as [|? ? Hc Hrest]; subst.
  pose proof (lxor_latin1 c (keyCharAt key i) Hc (keyCharAt_latin1 key i Hk)) as Hx.
  rewrite IH by done. f_equal.
  rewrite (N.mod_small (N.lxor c _)) by lia.
  rewrite N.lxor_assoc, N.lxor_nilpotent, N.lxor_0_r.
  apply N.mod_small. lia.
Qed.

Lemma xorFrom_nil key i text : xorFrom key i text = [] <-> text = [].
Proof. by destruct text. Qed.

Lemma codeUnitsOf_latin1 s : Forall (fun c => (c <= 255)%N) (codeUnitsOf s).
Proof.
  unfold codeUnitsOf. induction (list_ascii_of_string s) as [|a l IH]; constructor; [|done].
  pose proof (N_ascii_bounded a). lia.
Qed.

Lemma generateKey_latin1 fingerprint :
  Forall (fun c => (c <= 255)%N) (generateKey fingerprint).
Proof. apply codeUnitsOf_latin1. Qed.

(** The cipher on an arbitrary key of characters up to 255. *)
Lemma cipher_roundtrip {V} (p : Platform V) key text :
  PlatformOk p ->
  Forall (fun c => (c <= 255)%N) key ->
  Forall (fun c => (c <= 255)%N) text ->
  exists encrypted,
    encrypt p key text = Some encrypted /\
    decrypt p key encrypted = text /\
    (encrypted = "" <-> text = []).
Proof.
  intros Hp Hk Ht. destruct text as [|c text].
  { exists "". by repeat split. }
  destruct (btoa_latin1 p Hp (xorFrom key 0 (c :: text))) as (s & Hs & Ha & He).
  { by apply xorFrom_latin1. }
  exists s. split; [exact Hs|].
  assert (s <> "") as Hne.
  { intros E. apply He in E. by apply xorFrom_nil in E. }
  split; [|split; [done|by intros [=]]].
  unfold decrypt. rewrite (nonEmpty_true s Hne), Ha.
  by apply xorFrom_involutive.
Qed.

(** X26. With the key the class derives from the browser fingerprint,
    whatever the fingerprint, [decrypt] undoes [encrypt] on every text
    whose characters have codes up to 255; the ciphertext is empty only
    for the empty text. *)
Theorem X26_encrypt_decrypt_roundtrip {V} (p : Platform V) fingerprint text :
  PlatformOk p ->
  Forall (fun c => (c <= 255)%N) text ->
  exists encrypted,
    encrypt p (generateKey fingerprint) text = Some encrypted /\
    decrypt p (generateKey fingerprint) encrypted = text /\
    (encrypted = "" <-> text = []).
Proof.
  intros Hp Ht. apply cipher_roundtrip; [done| |done]. apply generateKey_latin1.
Qed.

Lemma bytePlatform_ok : PlatformOk bytePlatform.
Proof.
  split.
  - intros l Hl. simpl.
    assert (forallb (fun c => (c <=? 255)%N) l = true) as ->.
    { apply forallb_forall. rewrite List.Forall_forall in Hl.
      intros c Hc. apply N.leb_le. by apply Hl. }
    eexists. split; [reflexivity|]. split.
    + f_equal. unfold codeUnitsOf. rewrite list_ascii_of_string_of_list_ascii.
      induction Hl as [|c l Hc _ IH]; [done|]. simpl.
      rewrite IH, N_ascii_embedding; [done|lia].
    + by destruct l.
  - intros l Hl. simpl.
    assert (forallb (fun c => (c <=? 255)%N) l = false) as ->; [|done].
    induction Hl as [c l Hc|c l _ IH]; simpl.
    + assert ((c <=? 255)%N = false) as -> by (apply N.leb_gt; lia). done.
    + by rewrite IH, andb_false_r.
  - intros n. simpl. unfold numberToString.
    rewrite DecimalString.NilZero.isi.
    + simpl. f_equal. apply DecimalZ.of_to.
    + destruct n; simpl; try done. intros [= E]. by apply DecimalPos.Unsigned.to_uint_nonnil in E.
    + destruct n; simpl; try done. intros [= E]. by apply DecimalPos.Unsigned.to_uint_nonnil in E.
Qed.

Lemma X26_encrypt_decrypt_roundtrip_witness :
  exists encrypted,
    encrypt bytePlatform (generateKey (codeUnitsOf "Mozilla/5.0 1920x1080 UTC"))
            (codeUnitsOf "eyJhbGciOi.token") = Some encrypted /\
    decrypt bytePlatform (generateKey (codeUnitsOf "Mozilla/5.0 1920x1080 UTC")) encrypted =
      codeUnitsOf "eyJhbGciOi.token" /\
    (encrypted = "" <-> codeUnitsOf "eyJhbGciOi.token" = []).
Proof.
  apply (X26_encrypt_decrypt_roundtrip bytePlatform
           (codeUnitsOf "Mozilla/5.0 1920x1080 UTC") (codeUnitsOf "eyJhbGciOi.token")).
  - exact bytePlatform_ok.
  - apply codeUnitsOf_latin1.
Defined.

Lemma xor_keeps_high_character (c k : N) :
  (255 < c -> c < 65536 -> k <= 255 -> 255 < N.lxor c k mod 65536)%N.
Proof.
  intros Hc Hc' Hk.
  pose proof (lxor_lt_pow2 c k 16) as Hb. change (2 ^ 16)%N with 65536%N in Hb.
  rewrite N.mod_small by (apply Hb; lia).
  destruct (N.le_gt_cases (N.lxor c k) 255) as [Hle|]; [|done].
  pose proof (lxor_latin1 (N.lxor c k) k Hle Hk) as H.
  rewrite N.lxor_assoc, N.lxor_nilpotent, N.lxor_0_r in H. lia.
Qed.

Lemma xorFrom_keeps_high_character key text : forall i,
  Forall (fun c => (c <= 255)%N) key ->
  Forall (fun c => (c < 65536)%N) text ->
  Exists (fun c => (255 < c)%N) text ->
  Exists (fun c => (255 < c)%N) (xorFrom key i text).
Proof.
  induction text as [|c text IH]; intros i Hk Ht Hex; [inversion Hex|].
  inversion Ht as [|? ? Hc Hrest]; subst. simpl.
  inversion Hex as [? ? Hhigh|? ? Hlater]; subst.
  - apply Exists_cons_hd. apply xor_keeps_high_character; [done|done|].
    by apply keyCharAt_latin1.
  - apply Exists_cons_tl. by apply IH.
Qed.

(** X27. [setItem] silently stores nothing when the value holds a
    character with a code above 255 (any character outside Latin-1):
    [btoa] throws on the ciphertext, the exception is swallowed, and
    [localStorage] is left as it was, an earlier value of the key
    included. *)
Theorem X27_non_latin1_value_is_dropped {V} (p : Platform V) fingerprint ls k text now :
  PlatformOk p ->
  Forall (fun c => (c < 65536)%N) text ->
  Exists (fun c => (255 < c)%N) text ->
  setItem p (generateKey fingerprint) ls k (inl text) now = ls.
Proof.
  intros Hp Ht Hex. unfold setItem, encrypt.
  destruct text as [|c text]; [inversion Hex|].
  rewrite (btoa_throws p Hp); [done|].
  apply xorFrom_keeps_high_character; [apply generateKey_latin1|done|done].
Qed.

Lemma X27_non_latin1_value_is_dropped_witness :
  setItem bytePlatform (generateKey (codeUnitsOf "Mozilla/5.0 1920x1080 UTC"))
          {[ "secure_user_data" := "old" ]} "user_data"
          (inl [123; 34; 110; 34; 58; 34; 321; 34; 125]%N) 1000 =
  {[ "secure_user_data" := "old" ]}.
Proof.
  apply (X27_non_latin1_value_is_dropped bytePlatform
           (codeUnitsOf "Mozilla/5.0 1920x1080 UTC")).
  - exact bytePlatform_ok.
  - repeat constructor.
  - do 6 apply Exists_cons_tl. apply Exists_cons_hd. reflexivity.
Defined.

Lemma numberToString_nonEmpty n : nonEmpty (numberToString n) = true.
Proof.
  unfold numberToString. destruct (Z.to_int n) as [d|d]; [|done].
  by destruct d.
Qed.

Lemma append_not_self (k suffix : string) : suffix <> "" -> k <> k +:+ suffix.
Proof.
  intros Hs. induction k as [|a k IH].
  - change ("" +:+ suffix) with suffix. congruence.
  - change (String a k +:+ suffix) with (String a (k +:+ suffix)). congruence.
Qed.

Lemma secureKey_not_exp k : secureKey k <> secureExpKey k.
Proof.
  unfold secureKey, secureExpKey. intros E.
  change ("secure_" +:+ k) with
    (String "s" (String "e" (String "c" (String "u" (String "r" (String "e"
       (String "_" k))))))) in E.
  change ("secure_" +:+ k +:+ "_exp") with
    (String "s" (String "e" (String "c" (String "u" (String "r" (String "e"
       (String "_" (k +:+ "_exp")))))))) in E.
  injection E as E. by apply (append_not_self k "_exp") in E.
Qed.

(** X28. A non-empty text of characters up to 255 stored with [setItem]
    at time t is returned by [getItem] at every time up to t + 24 h (as
    the value [JSON.parse] makes of it, or as it is when it does not
    parse), leaving the storage unchanged; at any later time [getItem]
    returns null and removes the entry and its expiry. *)
Theorem X28_set_then_get {V} (p : Platform V) fingerprint ls k text t t' :
  PlatformOk p ->
  Forall (fun c => (c <= 255)%N) text ->
  text <> [] ->
  getItem p (generateKey fingerprint)
          (setItem p (generateKey fingerprint) ls k (inl text) t) k t' =
  if t + DAY <? t'
  then (removeItem (setItem p (generateKey fingerprint) ls k (inl text) t) k, None)
  else (setItem p (generateKey fingerprint) ls k (inl text) t,
        Some match jsonParse p text with
             | Some v => inl v
             | None => inr text
             end).
Proof.
  intros Hp Ht Hne.
  destruct (cipher_roundtrip p (generateKey fingerprint) text Hp
              (generateKey_latin1 fingerprint) Ht) as (enc & He & Hd & Hempty).
  unfold setItem. rewrite He. unfold getItem, expiredAt.
  rewrite lookup_insert_eq, numberToString_nonEmpty, (parseInt_toString p Hp). simpl.
  destruct (t + DAY <? t'); [done|].
  rewrite lookup_insert_ne by (intros E; by apply (secureKey_not_exp k)).
  rewrite lookup_insert_eq.
  assert (enc <> "") as Henc by (intros E; by apply Hempty in E).
  rewrite (nonEmpty_true enc Henc), Hd.
  by destruct (jsonParse p text).
Qed.

Lemma X28_set_then_get_witness :
  getItem bytePlatform (generateKey [])
          (setItem bytePlatform (generateKey []) ∅ "auth_token"
                   (inl (codeUnitsOf "abc.def")) 1000)
          "auth_token" (1000 + DAY) =
  (setItem bytePlatform (generateKey []) ∅ "auth_token" (inl (codeUnitsOf "abc.def")) 1000,
   Some (inr (codeUnitsOf "abc.def"))).
Proof.
  apply (X28_set_then_get bytePlatform [] ∅ "auth_token" (codeUnitsOf "abc.def") 1000
           (1000 + DAY)).
  - exact bytePlatform_ok.
  - apply codeUnitsOf_latin1.
  - discriminate.
Defined.

Lemma clear_lookup (ls : gmap string string) (k : string) :
  clear ls !! k = if String.prefix "secure_" k then None else ls !! k.
Proof.
  unfold clear. destruct (String.prefix "secure_" k) eqn:E.
  - apply map_lookup_filter_None. right. intros v _. simpl. congruence.
  - destruct (ls !! k) as [v|] eqn:L.
    + by apply map_lookup_filter_Some.
    + apply map_lookup_filter_None. by left.
Qed.

(** ** The Authorization header *)

Lemma startsWith_app prefix s : startsWith (prefix ++ s) prefix = true.
Proof.
  induction prefix as [|c prefix IH]; simpl; [done|].
  by rewrite N.eqb_refl, IH.
Qed.

Lemma formatToken_startsWith token : startsWith (formatToken token) BEARER = true.
Proof.
  unfold formatToken. destruct (startsWith token BEARER) eqn:E; [done|].
  apply startsWith_app.
Qed.

Lemma stored_text_read_back {V} (p : Platform V) fingerprint ls k text t t' :
  PlatformOk p ->
  Forall (fun c => (c <= 255)%N) text ->
  text <> [] ->
  t' <= t + DAY ->
  snd (getItem p (generateKey fingerprint)
               (setItem p (generateKey fingerprint) ls k (inl text) t) k t') =
  Some match jsonParse p text with
       | Some v => inl v
       | None => inr text
       end.
Proof.
  intros Hp Ht Hne Hle.
  destruct (cipher_roundtrip p (generateKey fingerprint) text Hp
              (generateKey_latin1 fingerprint) Ht) as (enc & He & Hd & Hempty).
  unfold setItem. rewrite He. unfold getItem, expiredAt.
  rewrite lookup_insert_eq, numberToString_nonEmpty, (parseInt_toString p Hp). simpl.
  destruct (Z.ltb_spec (t + DAY) t') as [?|_]; [lia|].
  rewrite lookup_insert_ne by (intros E; by apply (secureKey_not_exp k)).
  rewrite lookup_insert_eq.
  assert (enc <> "") as Henc by (intros E; by apply Hempty in E).
  rewrite (nonEmpty_true enc Henc), Hd.
  by destruct (jsonParse p text).
Qed.

(** X16. The token the request interceptor reads is what [getItem] makes
    of the stored text. For a non-empty text of characters up to 255 stored
    with [setToken] and read within 24 h: if the text is not JSON, the
    Authorization header is the text itself when it starts with "Bearer ",
    and "Bearer " followed by the text otherwise; if the text is JSON, the
    parsed value is the token: a string is formatted in the same way (no
    header when it is empty), a truthy value that is not a string makes
    [token.startsWith] throw, and for a falsy value no header is set.
    Whatever [getToken] returned, a header that is set starts with
    "Bearer ", and formatting it again changes nothing. *)
Theorem X16_authorization_header_is_bearer {V} (p : Platform V) (shape : V -> TokenShape)
    fingerprint ls text t t' :
  PlatformOk p ->
  Forall (fun c => (c <= 255)%N) text ->
  text <> [] ->
  t' <= t + DAY ->
  authorizationHeader shape
    (snd (getItem p (generateKey fingerprint)
                  (setItem p (generateKey fingerprint) ls "auth_token" (inl text) t)
                  "auth_token" t')) =
    match jsonParse p text with
    | None => Authorization (formatToken text)
    | Some v =>
        match shape v with
        | TokenString [] => NoHeader
        | TokenString parsed => Authorization (formatToken parsed)
        | TokenOther truthy => if truthy then StartsWithThrows else NoHeader
        end
    end /\
  (forall token value,
     authorizationHeader shape token = Authorization value ->
     startsWith value BEARER = true /\ formatToken value = value).
Proof.
  intros Hp Ht Hne Hle. split.
  - rewrite (stored_text_read_back p fingerprint ls "auth_token" text t t' Hp Ht Hne Hle).
    destruct (jsonParse p text) as [v|]; [reflexivity|].
    by destruct text.
  - intros token value H.
    assert (exists token', value = formatToken token') as [token' ->].
    { unfold authorizationHeader in H.
      destruct token as [[v|tx]|]; [| |done].
      - destruct (shape v) as [[|c tx]|[|]]; try done. injection H as <-. eauto.
      - destruct tx as [|c tx]; [done|]. injection H as <-. eauto. }
    pose proof (formatToken_startsWith token') as E.
    split; [done|]. unfold formatToken at 1. by rewrite E.
Qed.

Lemma X16_authorization_header_is_bearer_witness :
  authorizationHeader (fun _ : unit => TokenOther true)
    (snd (getItem bytePlatform (generateKey [])
                  (setItem bytePlatform (generateKey []) ∅ "auth_token"
                           (inl (codeUnitsOf "abc.def")) 1000)
                  "auth_token" 2000)) =
  Authorization (codeUnitsOf "Bearer abc.def").
Proof.
  destruct (X16_authorization_header_is_bearer bytePlatform (fun _ : unit => TokenOther true)
              [] ∅ (codeUnitsOf "abc.def") 1000 2000) as [H _].
  - exact bytePlatform_ok.
  - apply codeUnitsOf_latin1.
  - discriminate.
  - vm_compute. discriminate.
  - exact H.
Defined.

(** X30. Once the rejection handler has cleaned up after an
    authentication error, [getItem] returns null for every key, at any
    time: no token is left for the request interceptor to attach, the
    stored token counts as expired, and the plain "token" and "user"
    entries are gone. *)
Theorem X30_logout_leaves_no_token {V} (p : Platform V) key ls k now :
  getItem p key (logoutCleanup ls) k now = (logoutCleanup ls, None) /\
  isTokenExpired p (logoutCleanup ls) k now = true /\
  logoutCleanup ls !! "token" = None /\
  logoutCleanup ls !! "user" = None.
Proof.
  assert (forall k', String.prefix "secure_" k' = true -> logoutCleanup ls !! k' = None)
    as Hgone.
  { intros k' Hk. unfold logoutCleanup.
    destruct (decide (k' = "user")) as [->|H1]; [done|].
    destruct (decide (k' = "token")) as [->|H2]; [done|].
    rewrite !lookup_delete_ne by done.
    by rewrite clear_lookup, Hk. }
  assert (logoutCleanup ls !! secureKey k = None) as H1.
  { apply Hgone, prefix_spec. by exists k. }
  assert (logoutCleanup ls !! secureExpKey k = None) as H2.
  { apply Hgone, prefix_spec. by exists (k +:+ "_exp"). }
  repeat split.
  - unfold getItem. by rewrite H2, H1.
  - unfold isTokenExpired. by rewrite H2.
  - unfold logoutCleanup. by rewrite lookup_delete_ne, lookup_delete_eq.
  - unfold logoutCleanup. by rewrite lookup_delete_eq.
Qed.
